(** * StatusService example clients: rate-limit probing and retry loops

    A shallow embedding of the rate-limit scripts of the repository

    - [python_examples/rate_limit_test.py]: [test_rate_limiting],
      [test_rate_limit_recovery], [test_exempt_endpoints],
      [demonstrate_backoff_strategy];
    - [python_examples/error_handling.py]: [APIClient.get] and the retry loop
      of [example_safe_request] (its example 5),

    and the properties of the specification that concern them.

    The scripts talk to a remote service and narrate on the console.  Both are
    effects: a run is a function on the history of what the script has done so
    far (requests sent, sleeps, lines printed), and the remote service is an
    arbitrary function from the number of a request to what the transport
    delivers for it. *)

From Stdlib Require Import List ZArith QArith Bool String Ascii Lia.
From Stdlib Require Import DecimalString.
Import ListNotations.

#[local] Set Warnings "-register-all".

Local Open Scope string_scope.
Local Open Scope list_scope.
Local Open Scope Z_scope.

(** ** Python values, exceptions and ranges *)

Module Py.

(** What [response.json()] can return.  JSON numbers with a fraction are not
    inspected by any of the scripts and are left out. *)
Inductive value : Type :=
| PyNone
| PyBool (b : bool)
| PyInt (z : Z)
| PyStr (s : string)
| PyList (items : list value)
| PyDict (items : list (string * value)).

(** A formatted string: the literal parts and the interpolated values of an
    f-string, in order.  A newline escape is [NL]. *)
Inductive piece : Type :=
| Lit (s : string)
| Int (z : Z)
| Val (v : value)
| NL.

Definition text := list piece.

(** The exception classes that occur: the built-in ones the scripts can
    meet, and every class of [requests.exceptions] (requests 2.32) with the
    classes it derives from.  All of them derive from [Exception]: what only
    a [BaseException] is (an interrupt from the keyboard, the exit of the
    interpreter) ends the process and is not part of a run. *)
Inductive exn_class : Type :=
| Exception
| AttributeError
| LookupError
| KeyError
| TypeError
| ValueError
| OSError                         (* [IOError] is another name of it *)
| json_JSONDecodeError            (* json.JSONDecodeError *)
| urllib3_HTTPError               (* urllib3.exceptions.HTTPError *)
| requests_RequestException       (* requests.exceptions.RequestException *)
| requests_InvalidJSONError
| requests_JSONDecodeError        (* requests.exceptions.JSONDecodeError *)
| requests_HTTPError
| requests_ConnectionError        (* requests.exceptions.ConnectionError *)
| requests_ProxyError
| requests_SSLError
| requests_Timeout                (* requests.exceptions.Timeout *)
| requests_ConnectTimeout
| requests_ReadTimeout
| requests_URLRequired
| requests_TooManyRedirects
| requests_MissingSchema
| requests_InvalidSchema
| requests_InvalidURL
| requests_InvalidHeader
| requests_InvalidProxyURL
| requests_ChunkedEncodingError
| requests_ContentDecodingError
| requests_StreamConsumedError
| requests_RetryError
| requests_UnrewindableBodyError.

(** An exception object: its class and [str(e)]. *)
Record exn : Type := mk_exn { cls : exn_class; msg : text }.

Definition exn_class_eqb (a b : exn_class) : bool :=
  match a, b with
  | Exception, Exception
  | AttributeError, AttributeError
  | LookupError, LookupError
  | KeyError, KeyError
  | TypeError, TypeError
  | ValueError, ValueError
  | OSError, OSError
  | json_JSONDecodeError, json_JSONDecodeError
  | urllib3_HTTPError, urllib3_HTTPError
  | requests_RequestException, requests_RequestException
  | requests_InvalidJSONError, requests_InvalidJSONError
  | requests_JSONDecodeError, requests_JSONDecodeError
  | requests_HTTPError, requests_HTTPError
  | requests_ConnectionError, requests_ConnectionError
  | requests_ProxyError, requests_ProxyError
  | requests_SSLError, requests_SSLError
  | requests_Timeout, requests_Timeout
  | requests_ConnectTimeout, requests_ConnectTimeout
  | requests_ReadTimeout, requests_ReadTimeout
  | requests_URLRequired, requests_URLRequired
  | requests_TooManyRedirects, requests_TooManyRedirects
  | requests_MissingSchema, requests_MissingSchema
  | requests_InvalidSchema, requests_InvalidSchema
  | requests_InvalidURL, requests_InvalidURL
  | requests_InvalidHeader, requests_InvalidHeader
  | requests_InvalidProxyURL, requests_InvalidProxyURL
  | requests_ChunkedEncodingError, requests_ChunkedEncodingError
  | requests_ContentDecodingError, requests_ContentDecodingError
  | requests_StreamConsumedError, requests_StreamConsumedError
  | requests_RetryError, requests_RetryError
  | requests_UnrewindableBodyError, requests_UnrewindableBodyError => true
  | _, _ => false
  end.

(** The direct base classes, as the class statements give them.
    [requests.exceptions.JSONDecodeError] derives from the library's
    [InvalidJSONError] and from [json.JSONDecodeError];
    [ConnectTimeout] is both a [ConnectionError] and a [Timeout]. *)
Definition bases (c : exn_class) : list exn_class :=
  match c with
  | Exception => []
  | AttributeError => [Exception]
  | LookupError => [Exception]
  | KeyError => [LookupError]
  | TypeError => [Exception]
  | ValueError => [Exception]
  | OSError => [Exception]
  | json_JSONDecodeError => [ValueError]
  | urllib3_HTTPError => [Exception]
  | requests_RequestException => [OSError]
  | requests_InvalidJSONError => [requests_RequestException]
  | requests_JSONDecodeError => [requests_InvalidJSONError; json_JSONDecodeError]
  | requests_HTTPError => [requests_RequestException]
  | requests_ConnectionError => [requests_RequestException]
  | requests_ProxyError => [requests_ConnectionError]
  | requests_SSLError => [requests_ConnectionError]
  | requests_Timeout => [requests_RequestException]
  | requests_ConnectTimeout => [requests_ConnectionError; requests_Timeout]
  | requests_ReadTimeout => [requests_Timeout]
  | requests_URLRequired => [requests_RequestException]
  | requests_TooManyRedirects => [requests_RequestException]
  | requests_MissingSchema => [requests_RequestException; ValueError]
  | requests_InvalidSchema => [requests_RequestException; ValueError]
  | requests_InvalidURL => [requests_RequestException; ValueError]
  | requests_InvalidHeader => [requests_RequestException; ValueError]
  | requests_InvalidProxyURL => [requests_InvalidURL]
  | requests_ChunkedEncodingError => [requests_RequestException]
  | requests_ContentDecodingError => [requests_RequestException; urllib3_HTTPError]
  | requests_StreamConsumedError => [requests_RequestException; TypeError]
  | requests_RetryError => [requests_RequestException]
  | requests_UnrewindableBodyError => [requests_RequestException]
  end.

(** [issubclass c d], by walking the bases; the hierarchy is four deep. *)
Fixpoint subclass_upto (depth : nat) (c d : exn_class) : bool :=
  exn_class_eqb c d ||
  match depth with
  | O => false
  | S depth' => existsb (fun b => subclass_upto depth' b d) (bases c)
  end.

Definition issubclass (c d : exn_class) : bool := subclass_upto 4 c d.

Definition isinstance (e : exn) (d : exn_class) : bool := issubclass (cls e) d.

(** The result of an expression that may raise. *)
Inductive result (A : Type) : Type :=
| Ok (a : A)
| Raise (e : exn).

Arguments Ok {A} a.
Arguments Raise {A} e.

(** [type(v).__name__] *)
Definition type_name (v : value) : string :=
  match v with
  | PyNone => "NoneType"
  | PyBool _ => "bool"
  | PyInt _ => "int"
  | PyStr _ => "str"
  | PyList _ => "list"
  | PyDict _ => "dict"
  end.

Fixpoint lookup (key : string) (items : list (string * value)) : option value :=
  match items with
  | [] => None
  | (k, v) :: rest => if String.eqb k key then Some v else lookup key rest
  end.

(** [d.get(key, default)]: only a dict has the method. *)
Definition dict_get (d : value) (key : string) (default : value) : result value :=
  match d with
  | PyDict items =>
      match lookup key items with
      | Some v => Ok v
      | None => Ok default
      end
  | _ => Raise (mk_exn AttributeError
                  [Lit "'"; Lit (type_name d); Lit "' object has no attribute 'get'"])
  end.

(** [d[key]] for a string key. *)
Definition subscript (d : value) (key : string) : result value :=
  match d with
  | PyDict items =>
      match lookup key items with
      | Some v => Ok v
      | None => Raise (mk_exn KeyError [Lit "'"; Lit key; Lit "'"])
      end
  | PyList _ =>
      Raise (mk_exn TypeError [Lit "list indices must be integers or slices, not str"])
  | PyStr _ =>
      Raise (mk_exn TypeError [Lit "string indices must be integers, not 'str'"])
  | _ =>
      Raise (mk_exn TypeError
               [Lit "'"; Lit (type_name d); Lit "' object is not subscriptable"])
  end.

(** [s * n] on a string *)
Fixpoint str_mul (s : string) (n : nat) : string :=
  match n with
  | O => EmptyString
  | S n' => String.append s (str_mul s n')
  end.

(** [range(start, stop, step)] for [step <> 0], as the list it iterates. *)
Definition range3 (start stop step : Z) : list Z :=
  let n := if 0 <? step
           then (stop - start + step - 1) / step
           else (start - stop - step - 1) / (- step) in
  map (fun i => start + Z.of_nat i * step) (seq 0 (Z.to_nat n)).

(** [range(n)] *)
Definition range (n : Z) : list Z := range3 0 n 1.

End Py.

Import Py.

(** ** The transport and the history of a run *)

(** What [requests] hands back: the status code, the raw body and what
    [response.json()] does on it. *)
Record response : Type := mk_response {
  status_code : Z;
  content : string;
  json : result value
}.

(** What a script does to the outside world. *)
Inductive event : Type :=
| EvGet (url : string) (params : option (list (string * value))) (timeout : option Z)
| EvSleep (seconds : Q)
| EvPrint (line : text).

Definition history := list event.

(** The remote service and the transport in front of it: request number [k]
    of the run (from 0) is answered by a response, or the call raises. *)
Definition network := nat -> result response.

Definition is_get (e : event) : bool :=
  match e with EvGet _ _ _ => true | _ => false end.

Definition is_print (e : event) : bool :=
  match e with EvPrint _ => true | _ => false end.

(** The number of requests sent so far. *)
Definition n_requests (h : history) : nat := List.length (filter is_get h).

(** The durations slept, in order. *)
Fixpoint sleeps (h : history) : list Q :=
  match h with
  | [] => []
  | EvSleep s :: h' => s :: sleeps h'
  | _ :: h' => sleeps h'
  end.

(** The history without the console. *)
Definition control (h : history) : history := filter (fun e => negb (is_print e)) h.

(** The console alone. *)
Fixpoint printed (h : history) : list text :=
  match h with
  | [] => []
  | EvPrint l :: h' => l :: printed h'
  | _ :: h' => printed h'
  end.

(** ** A monad for the scripts

    A statement reads the network, updates the local variables [L] of its
    function and extends the history; it ends normally or by raising.
    Assignments made before an exception is raised stay made. *)

Module Script.

Definition M (L A : Type) : Type :=
  network -> L -> history -> result A * L * history.

Definition ret {L A} (a : A) : M L A :=
  fun _ l h => (Ok a, l, h).

Definition bind {L A B} (m : M L A) (k : A -> M L B) : M L B :=
  fun net l h =>
    match m net l h with
    | (Ok a, l', h') => k a net l' h'
    | (Raise e, l', h') => (Raise e, l', h')
    end.

Definition raise {L A} (e : exn) : M L A :=
  fun _ l h => (Raise e, l, h).

(** An expression that may raise, as a statement. *)
Definition lift {L A} (r : result A) : M L A :=
  fun _ l h => (r, l, h).

Definition read {L} : M L L :=
  fun _ l h => (Ok l, l, h).

Definition write {L} (l : L) : M L unit :=
  fun _ _ h => (Ok tt, l, h).

Definition modify {L} (f : L -> L) : M L unit :=
  fun _ l h => (Ok tt, f l, h).

(** The first [except] clause whose class the exception is an instance of. *)
Fixpoint handler_for {L A} (e : exn) (clauses : list (exn_class * (exn -> M L A)))
  : option (M L A) :=
  match clauses with
  | [] => None
  | (c, handle) :: rest =>
      if isinstance e c then Some (handle e) else handler_for e rest
  end.

(** [try: body  except c1 as e: h1  except c2 as e: h2 ...] *)
Definition try_ {L A} (body : M L A) (clauses : list (exn_class * (exn -> M L A)))
  : M L A :=
  fun net l h =>
    match body net l h with
    | (Ok a, l', h') => (Ok a, l', h')
    | (Raise e, l', h') =>
        match handler_for e clauses with
        | Some handle => handle net l' h'
        | None => (Raise e, l', h')
        end
    end.

(** How the body of a [for] loop ends: at its end, or at a [break]. *)
Inductive ctl : Type := Continue | Break.

(** [for x in xs: body] *)
Fixpoint for_each {L X} (xs : list X) (body : X -> M L ctl) : M L unit :=
  match xs with
  | [] => ret tt
  | x :: xs' =>
      bind (body x) (fun c =>
        match c with
        | Break => ret tt
        | Continue => for_each xs' body
        end)
  end.

(** [requests.get(url, params=..., timeout=...)]: the request is sent, and the
    network decides what comes back. *)
Definition requests_get {L} (url : string) (params : option (list (string * value)))
    (timeout : option Z) : M L response :=
  fun net l h => (net (n_requests h), l, h ++ [EvGet url params timeout]).

(** [time.sleep(seconds)] *)
Definition time_sleep {L} (seconds : Q) : M L unit :=
  fun _ l h => (Ok tt, l, h ++ [EvSleep seconds]).

(** [print(line)] *)
Definition print {L} (line : text) : M L unit :=
  fun _ l h => (Ok tt, l, h ++ [EvPrint line]).

(** [response.json()] *)
Definition response_json {L} (r : response) : M L value := lift (json r).

End Script.

Import Script.

Declare Scope script_scope.
Delimit Scope script_scope with script.
Bind Scope script_scope with M.

Notation "x <- m ;; k" := (bind m (fun x => k))
  (at level 100, m at next level, right associativity) : script_scope.
Notation "m ;; k" := (bind m (fun _ => k))
  (at level 100, right associativity) : script_scope.

Local Open Scope script_scope.

Definition BASE_URL : string := "http://localhost:5000".

Definition rule (c : string) (n : nat) : piece := Lit (str_mul c n).

(** ** rate_limit_test.py *)

Module RateLimitTest.

(** The local variables of [test_rate_limiting]. *)
Record counters : Type := mk_counters {
  successful : Z;
  rate_limited : Z;
  errors : Z
}.

Definition incr_successful (c : counters) : counters :=
  mk_counters (successful c + 1) (rate_limited c) (errors c).

Definition incr_rate_limited (c : counters) : counters :=
  mk_counters (successful c) (rate_limited c + 1) (errors c).

Definition incr_errors (c : counters) : counters :=
  mk_counters (successful c) (rate_limited c) (errors c + 1).

Definition users_url : string := String.append BASE_URL "/api/users".

(** The body of the loop of [test_rate_limiting], for request [i]. *)
Definition rate_limiting_request (i : Z) : M counters ctl :=
  try_
    (response <- requests_get users_url (Some [("count", PyInt 1)]) None ;;
     (if status_code response =? 200 then
        modify incr_successful ;;
        print [Lit "Request "; Int (i + 1); Lit ": ✓ Success"]
      else if status_code response =? 429 then
        modify incr_rate_limited ;;
        print [Lit "Request "; Int (i + 1); Lit ": ⚠ Rate limited (429)"] ;;
        error_data <- response_json response ;;
        reason <- lift (dict_get error_data "error" (PyStr "Unknown")) ;;
        print [Lit "  Error: "; Val reason]
      else
        modify incr_errors ;;
        print [Lit "Request "; Int (i + 1); Lit ": ✗ Error "; Int (status_code response)]) ;;
     time_sleep 0.1 ;;                      (* Small delay between requests *)
     ret Continue)
    [(Exception, fun e =>
        modify incr_errors ;;
        print ([Lit "Request "; Int (i + 1); Lit ": ✗ Exception: "] ++ msg e) ;;
        ret Continue)].

(** [for i in range(count)] over that body. *)
Definition rate_limiting_burst (count : Z) : M counters unit :=
  for_each (range count) rate_limiting_request.

(** [test_rate_limiting], with the number of requests it sends as a
    parameter. *)
Definition test_rate_limiting_with (count : Z) : M counters unit :=
  print [rule "=" 60] ;;
  print [Lit "Rate Limiting Test"] ;;
  print [rule "=" 60] ;;
  print [NL; Lit "Testing rate limits..."] ;;
  print [Lit "Note: Health, logs, blocklist endpoints are NOT rate-limited"] ;;
  print [NL; Lit "Sending requests to rate-limited endpoint..."] ;;
  write (mk_counters 0 0 0) ;;
  rate_limiting_burst count ;;
  print [NL; rule "=" 60] ;;
  print [Lit "Test Results"] ;;
  print [rule "=" 60] ;;
  c <- read ;;
  print [Lit "Successful: "; Int (successful c)] ;;
  print [Lit "Rate limited: "; Int (rate_limited c)] ;;
  print [Lit "Errors: "; Int (errors c)] ;;
  print [Lit "Total: "; Int (successful c + rate_limited c + errors c)] ;;
  if rate_limited c >? 0 then
    print [NL; Lit "✓ Rate limiting is working correctly!"] ;;
    print [Lit "  The service returned 429 after exceeding the limit."]
  else
    print [NL; Lit "⚠ No rate limiting detected."] ;;
    print [Lit "  You may need to send requests faster or check configuration."].

(** Send 35 requests quickly (should hit the 30/minute limit). *)
Definition test_rate_limiting : M counters unit := test_rate_limiting_with 35.

(** Step 1 of [test_rate_limit_recovery]: 35 requests whose responses are
    dropped. *)
Definition hit_rate_limit : M unit unit :=
  for_each (range 35) (fun _ =>
    _ <- requests_get users_url (Some [("count", PyInt 1)]) None ;;
    ret Continue).

(** Step 2: the countdown. *)
Definition wait_for_reset : M unit unit :=
  for_each (range3 65 0 (-5)) (fun remaining =>
    print [Lit "  "; Int remaining; Lit " seconds remaining..."] ;;
    time_sleep 5 ;;
    ret Continue).

(** [test_rate_limit_recovery].  Nothing is caught here: an exception of the
    transport ends the function. *)
Definition test_rate_limit_recovery : M unit unit :=
  print [NL; rule "=" 60] ;;
  print [Lit "Rate Limit Recovery Test"] ;;
  print [rule "=" 60] ;;
  print [NL; Lit "Step 1: Hitting rate limit..."] ;;
  hit_rate_limit ;;
  response <- requests_get users_url (Some [("count", PyInt 1)]) None ;;
  if status_code response =? 429 then
    print [Lit "✓ Rate limited as expected"] ;;
    print [NL; Lit "Step 2: Waiting 65 seconds for rate limit to reset..."] ;;
    wait_for_reset ;;
    print [NL; Lit "Step 3: Attempting request after waiting..."] ;;
    response <- requests_get users_url (Some [("count", PyInt 1)]) None ;;
    if status_code response =? 200 then
      print [Lit "✓ Request successful! Rate limit has reset."]
    else
      print [Lit "✗ Still rate limited (Status: "; Int (status_code response); Lit ")"]
  else
    print [Lit "⚠ Was not rate limited initially"].

Definition exempt_endpoints : list string :=
  ["/health"; "/logs?limit=5"; "/blocklist"].

(** The body of the inner loop of [test_exempt_endpoints]; the local variable
    is [successful].  The bare [except] catches every exception. *)
Definition exempt_request (endpoint : string) (i : Z) : M Z ctl :=
  try_
    (response <- requests_get (String.append BASE_URL endpoint) None None ;;
     (if status_code response =? 200 then
        modify (fun successful => successful + 1)
      else ret tt) ;;
     ret Continue)
    [(Exception, fun _ => ret Continue)].

(** The body of the outer loop. *)
Definition exempt_endpoint (endpoint : string) : M Z ctl :=
  print [NL; Lit "Testing "; Lit endpoint] ;;
  print [rule "-" 40] ;;
  write 0 ;;
  for_each (range 50) (exempt_request endpoint) ;;
  successful <- read ;;
  print [Lit "Sent 50 requests: "; Int successful; Lit " successful"] ;;
  (if successful =? 50 then
     print [Lit "✓ Endpoint is NOT rate-limited (as expected)"]
   else
     print [Lit "⚠ Only "; Int successful; Lit "/50 successful - may be rate-limited"]) ;;
  ret Continue.

Definition test_exempt_endpoints : M Z unit :=
  print [NL; rule "=" 60] ;;
  print [Lit "Exempt Endpoints Test"] ;;
  print [rule "=" 60] ;;
  print [NL; Lit "Testing endpoints that should NOT be rate-limited..."] ;;
  for_each exempt_endpoints exempt_endpoint.

(** The constants of a retry loop: [max_retries], [base_delay] and the factor
    by which the delay grows from one attempt to the next. *)
Record backoff_plan : Type := mk_plan {
  max_retries : Z;
  base_delay : Z;
  multiplier : Z
}.

(** [base_delay * (multiplier ** attempt)] *)
Definition delay (p : backoff_plan) (attempt : Z) : Z :=
  base_delay p * (multiplier p ^ attempt).

(** The body of the loop of [demonstrate_backoff_strategy]. *)
Definition backoff_attempt (p : backoff_plan) (attempt : Z) : M unit ctl :=
  try_
    (response <- requests_get users_url (Some [("count", PyInt 10)]) None ;;
     if status_code response =? 200 then
       print [NL; Lit "Attempt "; Int (attempt + 1); Lit ": ✓ Success"] ;;
       data <- response_json response ;;
       count <- lift (subscript data "count") ;;
       print [Lit "Received "; Val count; Lit " users"] ;;
       ret Break
     else if status_code response =? 429 then
       if attempt <? max_retries p - 1 then
         print [NL; Lit "Attempt "; Int (attempt + 1); Lit ": ⚠ Rate limited"] ;;
         print [Lit "Waiting "; Int (delay p attempt); Lit " seconds before retry..."] ;;
         time_sleep (inject_Z (delay p attempt)) ;;
         ret Continue
       else
         print [NL; Lit "Attempt "; Int (attempt + 1); Lit ": ✗ Max retries reached"] ;;
         ret Continue
     else ret Continue)
    [(Exception, fun e =>
        print ([NL; Lit "Attempt "; Int (attempt + 1); Lit ": ✗ Error: "] ++ msg e) ;;
        ret Continue)].

(** [demonstrate_backoff_strategy], with its constants as a parameter. *)
Definition backoff_strategy (p : backoff_plan) : M unit unit :=
  print [NL; rule "=" 60] ;;
  print [Lit "Exponential Backoff Strategy"] ;;
  print [rule "=" 60] ;;
  print [NL; Lit "Demonstrating how to handle rate limits gracefully..."] ;;
  for_each (range (max_retries p)) (backoff_attempt p).

(** [max_retries = 5], [base_delay = 1], and the delay doubles. *)
Definition demonstrate_backoff_strategy : M unit unit :=
  backoff_strategy (mk_plan 5 1 2).

End RateLimitTest.

(** ** error_handling.py *)

Module ErrorHandling.

Import RateLimitTest.

(** The fields of an [APIClient]; its session is the transport. *)
Record APIClient : Type := mk_client {
  base_url : string;
  timeout : Z
}.

(** [APIClient.get] *)
Definition get {L} (self : APIClient) (endpoint : string)
    (params : option (list (string * value))) : M L value :=
  let url := String.append (base_url self) endpoint in
  try_
    (response <- requests_get url params (Some (timeout self)) ;;
     (if status_code response >=? 400 then
        error_data <- (if String.eqb (content response) EmptyString
                       then ret (PyDict [("error", PyStr "Unknown error")])
                       else response_json response) ;;
        reason <- lift (dict_get error_data "error" (PyStr "Unknown error")) ;;
        raise (mk_exn Exception
                 [Lit "HTTP "; Int (status_code response); Lit ": "; Val reason])
      else ret tt) ;;
     response_json response)
    [(requests_Timeout, fun _ =>
        raise (mk_exn Exception
                 [Lit "Request timeout after "; Int (timeout self); Lit " seconds"]));
     (requests_ConnectionError, fun _ =>
        raise (mk_exn Exception
                 [Lit "Could not connect to API. Is the service running?"]));
     (requests_RequestException, fun e =>
        raise (mk_exn Exception (Lit "Request error: " :: msg e)));
     (json_JSONDecodeError, fun _ =>
        raise (mk_exn Exception [Lit "Invalid JSON response from API"]))].

(** The body of the retry loop of [example_safe_request]; the local variable
    is [retry_delay]. *)
Definition retry_attempt (client : APIClient) (p : backoff_plan) (attempt : Z)
  : M Z ctl :=
  try_
    (data <- get client "/api/products" (Some [("count", PyInt 2)]) ;;
     print [Lit "✓ Success on attempt "; Int (attempt + 1)] ;;
     count <- lift (subscript data "count") ;;
     print [Lit "  Received "; Val count; Lit " products"] ;;
     ret Break)
    [(Exception, fun e =>
        if attempt <? max_retries p - 1 then
          print ([Lit "✗ Attempt "; Int (attempt + 1); Lit " failed: "] ++ msg e) ;;
          retry_delay <- read ;;
          print [Lit "  Retrying in "; Int retry_delay; Lit " seconds..."] ;;
          time_sleep (inject_Z retry_delay) ;;
          write (retry_delay * multiplier p) ;;        (* Exponential backoff *)
          ret Continue
        else
          print ([Lit "✗ All "; Int (max_retries p); Lit " attempts failed: "] ++ msg e) ;;
          ret Continue)].

(** Example 5 of [example_safe_request], with its constants as a parameter. *)
Definition retry_logic (client : APIClient) (p : backoff_plan) : M Z unit :=
  print [NL; Lit "5. Retry Logic Example"] ;;
  print [rule "-" 60] ;;
  write (base_delay p) ;;
  for_each (range (max_retries p)) (retry_attempt client p).

(** [client = APIClient(BASE_URL)], [max_retries = 3], [retry_delay = 1], and
    the delay doubles. *)
Definition example_safe_request_retry : M Z unit :=
  retry_logic (mk_client BASE_URL 10) (mk_plan 3 1 2).

End ErrorHandling.

(** ** Reading a run *)

Module Run.

Import RateLimitTest.

Definition outcome {L A} (y : result A * L * history) : result A := fst (fst y).

Definition locals {L A} (y : result A * L * history) : L := snd (fst y).

Definition trace {L A} (y : result A * L * history) : history := snd y.

(** A script run on its own: from an empty history, every request answered
    by [x]. *)
Definition alone {L A} (m : M L A) (x : result response) (l : L)
  : result A * L * history := m (fun _ => x) l [].

(** The same run, placed after the history [h]. *)
Definition after {L A} (h : history) (y : result A * L * history)
  : result A * L * history := (outcome y, locals y, h ++ trace y).

(** A script that looks at the network once, for the next request. *)
Definition one_probe {L A} (m : M L A) : Prop :=
  forall net l h, m net l h = after h (alone m (net (n_requests h)) l).

(** The transport's answer is a response with status [s]. *)
Definition status_is (s : Z) (x : result response) : bool :=
  match x with
  | Ok r => status_code r =? s
  | Raise _ => false
  end.

(** [response.json()["count"]] can be read. *)
Definition has_count (r : response) : bool :=
  match json r with
  | Ok (PyDict items) =>
      match lookup "count" items with
      | Some _ => true
      | None => false
      end
  | _ => false
  end.

(** A 429 whose body is not a JSON object: [error_data.get] cannot be
    evaluated on it. *)
Definition unreadable_429 (x : result response) : bool :=
  match x with
  | Ok r =>
      (status_code r =? 429) &&
      match json r with
      | Ok (PyDict _) => false
      | _ => true
      end
  | Raise _ => false
  end.

(** How many of the answers to requests [k], ..., [k + n - 1] satisfy [f]. *)
Fixpoint count_from (f : result response -> bool) (net : network) (k n : nat) : nat :=
  match n with
  | O => O
  | S n' => (if f (net k) then 1 else 0) + count_from f net (S k) n'
  end.

(** How many of [n] attempts are made when attempt [k] is answered by
    [net k] and the first attempt that satisfies [done] is the last. *)
Fixpoint attempts_made (done : result response -> bool) (net : network) (k n : nat)
  : nat :=
  match n with
  | O => O
  | S n' => if done (net k) then 1%nat else S (attempts_made done net (S k) n')
  end.

Definition total (c : counters) : Z := successful c + rate_limited c + errors c.

(** The request of [test_rate_limiting] and [test_rate_limit_recovery]. *)
Definition probe : event := EvGet users_url (Some [("count", PyInt 1)]) None.

(** What the countdown of [test_rate_limit_recovery] prints and sleeps. *)
Definition countdown : history :=
  flat_map
    (fun remaining : Z =>
       [EvPrint [Lit "  "; Int remaining; Lit " seconds remaining..."]; EvSleep 5])
    (range3 65 0 (-5)).

(** The history of [test_rate_limit_recovery] up to its decision, when the
    first 36 requests are answered. *)
Definition saturation : history :=
  [EvPrint [NL; rule "=" 60];
   EvPrint [Lit "Rate Limit Recovery Test"];
   EvPrint [rule "=" 60];
   EvPrint [NL; Lit "Step 1: Hitting rate limit..."]]
  ++ repeat probe 36.

(** The time slept in all. *)
Definition total_sleep (h : history) : Q := fold_right Qplus 0%Q (sleeps h).

(** The console shows the one-piece line [s]. *)
Definition reported (s : string) (h : history) : bool :=
  existsb (fun line => match line with
                       | [Lit s'] => String.eqb s s'
                       | _ => false
                       end) (printed h).

End Run.

Import Run.

(** What [APIClient.get] makes of the transport's answer [x]: the value it
    returns, or the exception it raises. *)
Definition get_answer (self : ErrorHandling.APIClient) (x : result response)
  : result value :=
  outcome (alone (L := unit) (ErrorHandling.get self EmptyString None) x tt).

(** ** The vocabulary of the specification *)

Module Spec.

Import RateLimitTest.

(** The three outcomes of a probe (section 3 of the specification). *)
Inductive ProbeOutcome : Type := Success | Throttled | Failed.


(** The classification of section 4.1, as the specification words it:
    200-299 is Success, exactly 429 is Throttled, anything else and a
    failure of the transport is Failed. *)
Definition classify_4_1 (x : result response) : ProbeOutcome :=
  match x with
  | Ok r =>
      if (200 <=? status_code r) && (status_code r <=? 299) then Success
      else if status_code r =? 429 then Throttled
      else Failed
  | Raise _ => Failed
  end.

(** The reset window of the soft tier: "Tier 1: 30 requests per minute". *)
Definition softLimitWindowSeconds : Q := 60.

(** The attempts of [demonstrate_backoff_strategy] that end its loop: a 200
    with a body whose [count] the loop can read. *)
Definition backoff_success (x : result response) : bool :=
  match x with
  | Ok r => (status_code r =? 200) && has_count r
  | Raise _ => false
  end.

(** The attempts of the retry loop of [example_safe_request] that end it:
    [APIClient.get] returns, with a body whose [count] the loop can read. *)
Definition retry_success (x : result response) : bool :=
  match x with
  | Ok r => (status_code r <? 400) && has_count r
  | Raise _ => false
  end.

(** What the loop of [demonstrate_backoff_strategy] does to the outside
    world when it starts at request [k] with [n] attempts to go: each attempt
    that is made sends one request; after a 429, when attempts remain, it
    sleeps [delay p attempt]; nothing else is slept. *)
Definition backoff_schedule (p : backoff_plan) (net : network) (k n : nat)
  : history :=
  flat_map
    (fun a : nat =>
       EvGet users_url (Some [("count", PyInt 10)]) None ::
       (if status_is 429 (net a) && (Z.of_nat a <? max_retries p - 1)
        then [EvSleep (inject_Z (delay p (Z.of_nat a)))]
        else []))
    (seq k (attempts_made backoff_success net k n)).

(** The same for the retry loop of [example_safe_request]: after every
    attempt that does not end the loop, when attempts remain, it sleeps
    [delay p attempt]. *)
Definition retry_schedule (client : ErrorHandling.APIClient) (p : backoff_plan)
    (net : network) (k n : nat) : history :=
  flat_map
    (fun a : nat =>
       EvGet (String.append (ErrorHandling.base_url client) "/api/products")
         (Some [("count", PyInt 2)]) (Some (ErrorHandling.timeout client)) ::
       (if negb (retry_success (net a)) && (Z.of_nat a <? max_retries p - 1)
        then [EvSleep (inject_Z (delay p (Z.of_nat a)))]
        else []))
    (seq k (attempts_made retry_success net k n)).

End Spec.

Import Spec.
Import RateLimitTest ErrorHandling.


(** Unfolds the statements of a script down to functions on histories. *)
Ltac unfold_script :=
  unfold alone, after, outcome, locals, trace, try_, bind, ret, raise, lift,
    read, write, modify, requests_get, time_sleep, print, response_json in *.

(** ** Sample answers of the transport *)

Module Samples.

(** A double quote, and a string between two of them. *)
Definition dq : string := String (ascii_of_nat 34) EmptyString.

Definition quoted (s : string) : string := String.append dq (String.append s dq).

(** 200 with the users asked for. *)
Definition users_200 : response :=
  mk_response 200
    (String.append "{" (String.append (quoted "count") ": 10}"))
    (Ok (PyDict [("count", PyInt 10)])).

(** 200 with a JSON object that has no [count]. *)
Definition empty_200 : response := mk_response 200 "{}" (Ok (PyDict [])).


(** 429 with the reason in the [error] field. *)
Definition throttled_429 : response :=
  mk_response 429
    (String.append "{" (String.append (quoted "error")
       (String.append ": " (String.append (quoted "Rate limit exceeded") "}"))))
    (Ok (PyDict [("error", PyStr "Rate limit exceeded")])).


(** 429 with a page of a proxy in front of the service: not JSON. *)
Definition html_429 : response :=
  mk_response 429 "<html>Too Many Requests</html>"
    (Raise (mk_exn requests_JSONDecodeError
              [Lit "Expecting value: line 1 column 1 (char 0)"])).


(** 500 Internal Server Error. *)
Definition error_500 : response :=
  mk_response 500
    (String.append "{" (String.append (quoted "error")
       (String.append ": " (String.append (quoted "Internal Server Error") "}"))))
    (Ok (PyDict [("error", PyStr "Internal Server Error")])).

(** The service is not running. *)
Definition refused : exn :=
  mk_exn requests_ConnectionError [Lit "Connection refused"].

(** The service does not answer in time. *)
Definition timed_out : exn := mk_exn requests_Timeout [Lit "Read timed out."].

(** Every request gets the same answer. *)
Definition always (x : result response) : network := fun _ => x.

(** Request [k] gets [x], every other one [y]. *)
Definition only (k : nat) (x y : result response) : network :=
  fun j => if Nat.eqb j k then x else y.

Definition fresh : counters := mk_counters 0 0 0.

End Samples.

Import Samples.

(** ** The callers and the other examples of the two scripts

    [main] of [rate_limit_test.py]; examples 1 to 4 of [example_safe_request],
    [example_status_code_handling] and the script itself of
    [error_handling.py]. *)

Module Callers.

Import RateLimitTest ErrorHandling.

(** [str(n)] for an integer. *)
Definition str_int (z : Z) : string := NilZero.string_of_int (Z.to_int z).




Section Library.

(** Of the standard library the scripts use, three things are taken as they
    come: [json.dumps(v, indent=2)]; the [IndexError] of an index out of
    range, an [Exception] of a class the scripts never name; and the text
    [traceback.print_exc()] writes for an exception. *)
Variable json_dumps : value -> string.
Variable IndexError : text -> exn.
Variable format_exc : exn -> text.





Definition test_cases : list (Z * string) :=
  [(200, "OK");
   (201, "Created");
   (400, "Bad Request");
   (404, "Not Found");
   (500, "Internal Server Error")].

(** The body of the loop of [example_status_code_handling]; [code] is the
    [status_code] of the test case. *)
Definition status_code_case (case : Z * string) : M unit ctl :=
  let '(code, description) := case in
  print [NL; Lit description; Lit " ("; Int code; Lit ")"] ;;
  print [rule "-" 60] ;;
  try_
    (response <- requests_get
                   (String.append BASE_URL (String.append "/status/" (str_int code)))
                   (Some [("message", PyStr description)]) None ;;
     print [Lit "Status Code: "; Int (status_code response)] ;;
     body <- response_json response ;;
     print [Lit "Response: "; Lit (json_dumps body)] ;;
     (* Handle based on status code *)
     if status_code response =? 200 then
       print [Lit "✓ Success"]
     else if status_code response =? 201 then
       print [Lit "✓ Resource created"]
     else if (status_code response >=? 400) && (status_code response <? 500) then
       print [Lit "✗ Client error"]
     else if status_code response >=? 500 then
       print [Lit "✗ Server error"]
     else ret tt)
    [(Exception, fun e => print ([Lit "✗ Exception: "] ++ msg e))] ;;
  ret Continue.

Definition example_status_code_handling : M unit unit :=
  print [NL; rule "=" 60] ;;
  print [Lit "Status Code Handling Examples"] ;;
  print [rule "=" 60] ;;
  for_each test_cases status_code_case.




End Library.

End Callers.

(** ** Reading a run that is part of a longer one *)

Module Part.

Import RateLimitTest.




(** The numbers [test_exempt_endpoints] prints in its lines
    "Sent 50 requests: n successful". *)
Definition sent_successful_line (e : event) : option Z :=
  match e with
  | EvPrint [Lit before; Int n; Lit behind] =>
      if String.eqb before "Sent 50 requests: " && String.eqb behind " successful"
      then Some n else None
  | _ => None
  end.

Fixpoint sent_successful (h : history) : list Z :=
  match h with
  | [] => []
  | e :: h' =>
      match sent_successful_line e with
      | Some n => n :: sent_successful h'
      | None => sent_successful h'
      end
  end.

(** The request is answered with a status that passes [test] and a body
    that is JSON. *)
Definition answered_with (test : Z -> bool) (x : result response) : bool :=
  match x with
  | Ok r => test (status_code r) && (match json r with Ok _ => true | Raise _ => false end)
  | Raise _ => false
  end.

(** The sum of the delays of attempts [0], ..., [n - 1]. *)
Fixpoint delays_upto (p : backoff_plan) (n : nat) : Z :=
  match n with
  | O => 0
  | S n' => delays_upto p n' + delay p (Z.of_nat n')
  end.

End Part.

Import Callers Part.

(** * Properties *)

(** ** Histories *)

Lemma n_requests_app (h1 h2 : history) :
  n_requests (h1 ++ h2) = (n_requests h1 + n_requests h2)%nat.
Proof. unfold n_requests. rewrite filter_app, length_app. reflexivity. Qed.

Lemma sleeps_app (h1 h2 : history) : sleeps (h1 ++ h2) = sleeps h1 ++ sleeps h2.
Proof.
  induction h1 as [|e h1 IH]; simpl; [reflexivity|].
  destruct e; simpl; rewrite IH; reflexivity.
Qed.

Lemma printed_app (h1 h2 : history) : printed (h1 ++ h2) = printed h1 ++ printed h2.
Proof.
  induction h1 as [|e h1 IH]; simpl; [reflexivity|].
  destruct e; simpl; rewrite IH; reflexivity.
Qed.

Lemma control_app (h1 h2 : history) : control (h1 ++ h2) = control h1 ++ control h2.
Proof. unfold control. apply filter_app. Qed.

Lemma n_requests_control (h : history) : n_requests (control h) = n_requests h.
Proof.
  unfold n_requests, control. induction h as [|e h IH]; simpl; [reflexivity|].
  destruct e; simpl; rewrite ?IH; reflexivity.
Qed.

Lemma sleeps_control (h : history) : sleeps (control h) = sleeps h.
Proof.
  unfold control. induction h as [|e h IH]; simpl; [reflexivity|].
  destruct e; simpl; rewrite ?IH; reflexivity.
Qed.

(** ** Ranges *)

Lemma range_seq (n : Z) : range n = map Z.of_nat (seq 0 (Z.to_nat n)).
Proof.
  unfold range, range3. simpl.
  replace (n - 0 + 1 - 1) with n by lia. rewrite Z.div_1_r.
  apply map_ext. intro i. lia.
Qed.

Lemma length_range (n : Z) : List.length (range n) = Z.to_nat n.
Proof. rewrite range_seq, length_map, length_seq. reflexivity. Qed.

(** ** Exceptions *)

Lemma isinstance_Exception (e : exn) : isinstance e Exception = true.
Proof. destruct e as [c m]; destruct c; reflexivity. Qed.

(** ** Loops whose body sends one request *)

Lemma for_each_cons {L X} (body : X -> M L ctl) (x : X) (xs : list X)
    (net : network) (l : L) (h : history) :
  one_probe (body x) ->
  for_each (x :: xs) body net l h =
  match alone (body x) (net (n_requests h)) l with
  | (Ok Continue, l', evs) => for_each xs body net l' (h ++ evs)
  | (Ok Break, l', evs) => (Ok tt, l', h ++ evs)
  | (Raise e, l', evs) => (Raise e, l', h ++ evs)
  end.
Proof.
  intro Hone. simpl. unfold bind at 1. rewrite Hone.
  destruct (alone (body x) (net (n_requests h)) l) as [[[c|e] l'] evs];
    [destruct c|]; reflexivity.
Qed.

(** ** One request per loop body *)

Lemma rate_limiting_request_one_probe (i : Z) : one_probe (rate_limiting_request i).
Proof.
  intros net l h. unfold rate_limiting_request. unfold_script. simpl.
  destruct (net (n_requests h)) as [r|e]; simpl.
  - destruct (status_code r =? 200); simpl.
    + rewrite <- !app_assoc. reflexivity.
    + destruct (status_code r =? 429); simpl.
      * destruct (json r) as [v|e]; simpl.
        -- destruct (dict_get v "error" (PyStr "Unknown")) as [w|e]; simpl;
             rewrite ?isinstance_Exception; simpl;
             rewrite <- !app_assoc; reflexivity.
        -- rewrite isinstance_Exception. simpl. rewrite <- !app_assoc. reflexivity.
      * rewrite <- !app_assoc. reflexivity.
  - rewrite isinstance_Exception. simpl. rewrite <- !app_assoc. reflexivity.
Qed.

Lemma exempt_request_one_probe (endpoint : string) (i : Z) :
  one_probe (exempt_request endpoint i).
Proof.
  intros net l h. unfold exempt_request. unfold_script. simpl.
  destruct (net (n_requests h)) as [r|e]; simpl.
  - destruct (status_code r =? 200); reflexivity.
  - rewrite isinstance_Exception. reflexivity.
Qed.

Lemma backoff_attempt_one_probe (p : backoff_plan) (attempt : Z) :
  one_probe (backoff_attempt p attempt).
Proof.
  intros net l h. unfold backoff_attempt. unfold_script. simpl.
  destruct (net (n_requests h)) as [r|e]; simpl.
  - destruct (status_code r =? 200); simpl.
    + destruct (json r) as [v|e]; simpl.
      * destruct (subscript v "count") as [w|e]; simpl;
          rewrite ?isinstance_Exception; simpl;
          rewrite <- !app_assoc; reflexivity.
      * rewrite isinstance_Exception. simpl. rewrite <- !app_assoc. reflexivity.
    + destruct (status_code r =? 429); simpl; [|reflexivity].
      destruct (attempt <? max_retries p - 1); simpl;
        rewrite <- !app_assoc; reflexivity.
  - rewrite isinstance_Exception. simpl. rewrite <- !app_assoc. reflexivity.
Qed.

(** [APIClient.get] sends one request and leaves the local variables of its
    caller alone. *)
Lemma get_run {L} (self : APIClient) (endpoint : string)
    (params : option (list (string * value))) (net : network) (l : L) (h : history) :
  get self endpoint params net l h =
  (get_answer self (net (n_requests h)), l,
   h ++ [EvGet (String.append (base_url self) endpoint) params (Some (timeout self))]).
Proof.
  unfold get_answer, get. unfold_script. simpl.
  destruct (net (n_requests h)) as [r|e]; simpl.
  - destruct (status_code r >=? 400); simpl.
    + destruct (String.eqb (content r) EmptyString); simpl; [reflexivity|].
      destruct (json r) as [v|e]; simpl.
      * destruct (dict_get v "error" (PyStr "Unknown error")) as [w|e]; simpl.
        -- reflexivity.
        -- destruct e as [c m]; destruct c; reflexivity.
      * destruct e as [c m]; destruct c; reflexivity.
    + destruct (json r) as [v|e]; simpl; [reflexivity|].
      destruct e as [c m]; destruct c; reflexivity.
  - destruct e as [c m]; destruct c; reflexivity.
Qed.

Lemma retry_attempt_one_probe (client : APIClient) (p : backoff_plan) (attempt : Z) :
  one_probe (retry_attempt client p attempt).
Proof.
  intros net l h. unfold retry_attempt, alone, after, try_, bind.
  rewrite !get_run. simpl n_requests. cbv beta.
  destruct (get_answer client (net (n_requests h))) as [v|e].
  - unfold_script. simpl.
    destruct (subscript v "count") as [w|e]; simpl.
    + rewrite <- !app_assoc. reflexivity.
    + rewrite isinstance_Exception.
      destruct (attempt <? max_retries p - 1); simpl;
        rewrite <- !app_assoc; reflexivity.
  - unfold_script. simpl. rewrite isinstance_Exception.
    destruct (attempt <? max_retries p - 1); simpl;
      rewrite <- !app_assoc; reflexivity.
Qed.

(** ** The probe of [test_rate_limiting] *)




(** ** The burst of [test_rate_limiting] *)

(** One pass of the loop: it ends normally, has sent one request, and has
    added one to the counters, two when the answer is a 429 whose body is
    not a JSON object. *)
Lemma rate_limiting_request_alone (i : Z) (x : result response) (c : counters) :
  exists c' evs,
    alone (rate_limiting_request i) x c = (Ok Continue, c', evs) /\
    n_requests evs = 1%nat /\
    total c' = total c + 1 + (if unreadable_429 x then 1 else 0).
Proof.
  unfold rate_limiting_request, total, unreadable_429. unfold_script. simpl.
  destruct x as [r|e]; simpl.
  - destruct (status_code r =? 200) eqn:E200; simpl.
    + apply Z.eqb_eq in E200. rewrite E200. simpl.
      do 2 eexists. split; [reflexivity|]. split; [reflexivity|]. simpl. lia.
    + destruct (status_code r =? 429); simpl.
      * destruct (json r) as [v|e]; simpl.
        -- destruct v; simpl; rewrite ?isinstance_Exception; simpl;
             try (do 2 eexists; split; [reflexivity|];
                  split; [reflexivity|]; simpl; lia).
           destruct (lookup "error" items); simpl;
             do 2 eexists; (split; [reflexivity|]);
             (split; [reflexivity|]); simpl; lia.
        -- rewrite isinstance_Exception. simpl.
           do 2 eexists. split; [reflexivity|]. split; [reflexivity|]. simpl. lia.
      * do 2 eexists. split; [reflexivity|]. split; [reflexivity|]. simpl. lia.
  - rewrite isinstance_Exception. simpl.
    do 2 eexists. split; [reflexivity|]. split; [reflexivity|]. simpl. lia.
Qed.

(** The loop over any list of indices: it never stops early, and the three
    counters together grow by the number of requests plus the number of
    429 answers with an unreadable body. *)
Lemma rate_limiting_requests_run (xs : list Z) (net : network) :
  forall (c : counters) (h : history),
    let y := for_each xs rate_limiting_request net c h in
    outcome y = Ok tt /\
    n_requests (trace y) = (n_requests h + List.length xs)%nat /\
    total (locals y) =
    total c + Z.of_nat (List.length xs)
    + Z.of_nat (count_from unreadable_429 net (n_requests h) (List.length xs)).
Proof.
  induction xs as [|x xs IH]; intros c h; cbv zeta.
  - simpl. unfold_script. simpl. repeat split; try reflexivity; lia.
  - rewrite for_each_cons by apply rate_limiting_request_one_probe.
    destruct (rate_limiting_request_alone x (net (n_requests h)) c)
      as (c' & evs & Hrun & Hreq & Htotal).
    rewrite Hrun.
    destruct (IH c' (h ++ evs)) as (Hout & Hn & Ht).
    rewrite n_requests_app, Hreq, Nat.add_1_r in Hn, Ht.
    split; [exact Hout|]. split.
    + rewrite Hn. simpl. lia.
    + rewrite Ht, Htotal. simpl count_from. simpl List.length.
      destruct (unreadable_429 (net (n_requests h))); lia.
Qed.

(** X2: for every count, the burst sends exactly [count] requests and ends
    normally: no answer stops it early. *)
Lemma rate_limiting_burst_sends_count (count : Z) (net : network) (c : counters) :
  outcome (rate_limiting_burst count net c []) = Ok tt /\
  n_requests (trace (rate_limiting_burst count net c [])) = Z.to_nat count.
Proof.
  unfold rate_limiting_burst.
  destruct (rate_limiting_requests_run (range count) net c []) as (Hout & Hn & _).
  rewrite length_range in Hn. split; [exact Hout | exact Hn].
Qed.



(** C2: the code breaks the invariant.  A 429 whose body is not JSON is
    counted as rate limited, then [response.json()] raises and the handler
    counts the same request as an error: of 35 requests, 34 successes, one
    rate limited and one error are reported, 36 in all. *)
Theorem C2_unparsable_429_is_counted_twice :
  let y := test_rate_limiting (only 0 (Ok html_429) (Ok users_200)) fresh [] in
  outcome y = Ok tt /\
  n_requests (trace y) = 35%nat /\
  locals y = mk_counters 34 1 1 /\
  total (locals y) = 36.
Proof. vm_compute. repeat split. Qed.

(** C8: the code breaks the pacing.  The sleep stands inside the [try], after
    the classification: when the request raises (or a 429 has an unreadable
    body) the handler runs and the next request follows with no sleep in
    between.  With the service down, all 35 requests go out back to back. *)
Theorem C8_no_sleep_after_a_request_that_raises :
  control (trace (rate_limiting_burst 2 (only 0 (Raise refused) (Ok users_200)) fresh []))
  = [EvGet users_url (Some [("count", PyInt 1)]) None;
     EvGet users_url (Some [("count", PyInt 1)]) None;
     EvSleep 0.1] /\
  n_requests (trace (test_rate_limiting (always (Raise refused)) fresh [])) = 35%nat /\
  sleeps (trace (test_rate_limiting (always (Raise refused)) fresh [])) = [].
Proof. vm_compute. repeat split. Qed.

(** ** The burst of [test_exempt_endpoints] *)

Lemma exempt_request_run (endpoint : string) (i : Z) (net : network) (s : Z)
    (h : history) :
  exempt_request endpoint i net s h =
  (Ok Continue,
   (if status_is 200 (net (n_requests h)) then s + 1 else s),
   h ++ [EvGet (String.append BASE_URL endpoint) None None]).
Proof.
  unfold exempt_request, status_is. unfold_script. simpl.
  destruct (net (n_requests h)) as [r|e]; simpl.
  - destruct (status_code r =? 200); reflexivity.
  - rewrite isinstance_Exception. reflexivity.
Qed.

Lemma exempt_requests_same_200 (endpoint : string) (net1 net2 : network) :
  (forall k, status_is 200 (net1 k) = status_is 200 (net2 k)) ->
  forall (xs : list Z) (s : Z) (h : history),
    for_each xs (exempt_request endpoint) net1 s h
    = for_each xs (exempt_request endpoint) net2 s h.
Proof.
  intros Hsame xs. induction xs as [|x xs IH]; intros s h; [reflexivity|].
  simpl. unfold bind. rewrite !exempt_request_run, Hsame. apply IH.
Qed.

Lemma for_each_same {L X} (body : X -> M L ctl) (net1 net2 : network) :
  (forall x l h, body x net1 l h = body x net2 l h) ->
  forall (xs : list X) (l : L) (h : history),
    for_each xs body net1 l h = for_each xs body net2 l h.
Proof.
  intros Hsame xs. induction xs as [|x xs IH]; intros l h; [reflexivity|].
  simpl. unfold bind. rewrite Hsame.
  destruct (body x net2 l h) as [[[c|e] l'] h']; [destruct c|]; auto.
Qed.

(** C10: in the burst against an exempt endpoint every exception of a
    request is swallowed: the pass ends normally, prints nothing and leaves
    [successful] as it was.  Only a status of exactly 200 adds one.  So the
    whole run, console included, depends on the network only through which
    requests are answered by a 200: a 429, any other status and a failure of
    the transport cannot be told apart in what is reported. *)
Theorem C10_exempt_check_records_successes_only :
  (forall (endpoint : string) (i : Z) (net : network) (s : Z) (h : history),
     let y := exempt_request endpoint i net s h in
     outcome y = Ok Continue /\
     printed (trace y) = printed h /\
     locals y = (if status_is 200 (net (n_requests h)) then s + 1 else s)) /\
  (forall (net1 net2 : network) (s : Z),
     (forall k, status_is 200 (net1 k) = status_is 200 (net2 k)) ->
     test_exempt_endpoints net1 s [] = test_exempt_endpoints net2 s []).
Proof.
  split.
  - intros endpoint i net s h. cbv zeta. rewrite exempt_request_run.
    unfold outcome, locals, trace. simpl.
    rewrite printed_app. simpl. rewrite app_nil_r. repeat split.
  - intros net1 net2 s Hsame.
    unfold test_exempt_endpoints. unfold_script.
    apply for_each_same. intros endpoint l h.
    unfold exempt_endpoint. unfold_script.
    rewrite (exempt_requests_same_200 endpoint net1 net2 Hsame).
    destruct (for_each (range 50) (exempt_request endpoint) net2 0 _)
      as [[[u|e] l'] h']; [destruct (l' =? 50)|]; reflexivity.
Qed.

Lemma C10_exempt_check_witness :
  test_exempt_endpoints (always (Ok throttled_429)) 0 []
  = test_exempt_endpoints (always (Raise refused)) 0 [] /\
  test_exempt_endpoints (always (Ok error_500)) 0 []
  = test_exempt_endpoints (always (Raise refused)) 0 [].
Proof.
  split; apply (proj2 C10_exempt_check_records_successes_only);
    intro k; reflexivity.
Defined.

(** ** The loop of [demonstrate_backoff_strategy] *)

(** One attempt: it never raises, it ends the loop exactly on a 200 whose
    [count] can be read, it sends one request, and it sleeps exactly after a
    429 that is not the last attempt. *)
Lemma backoff_attempt_alone (p : backoff_plan) (attempt : Z) (x : result response) :
  exists evs,
    alone (backoff_attempt p attempt) x tt
    = (Ok (if backoff_success x then Break else Continue), tt, evs) /\
    control evs =
    EvGet users_url (Some [("count", PyInt 10)]) None ::
    (if status_is 429 x && (attempt <? max_retries p - 1)
     then [EvSleep (inject_Z (delay p attempt))]
     else []).
Proof.
  unfold backoff_attempt, backoff_success, has_count, status_is.
  unfold_script. simpl.
  destruct x as [r|e]; simpl.
  - destruct (status_code r =? 200) eqn:E200; simpl.
    + apply Z.eqb_eq in E200. rewrite E200. simpl.
      destruct (json r) as [v|e]; simpl.
      * destruct v; simpl; rewrite ?isinstance_Exception; simpl;
          try (eexists; split; reflexivity).
        destruct (lookup "count" items); simpl;
          rewrite ?isinstance_Exception; simpl;
          eexists; split; reflexivity.
      * rewrite isinstance_Exception. simpl. eexists; split; reflexivity.
    + destruct (status_code r =? 429); simpl.
      * destruct (attempt <? max_retries p - 1); simpl;
          eexists; split; reflexivity.
      * eexists; split; reflexivity.
  - rewrite isinstance_Exception. simpl. eexists; split; reflexivity.
Qed.

Lemma n_requests_of_control (evs : history) (g : event) (rest : history) :
  control evs = g :: rest -> is_get g = true -> n_requests rest = 0%nat ->
  n_requests evs = 1%nat.
Proof.
  intros Hc Hg Hrest. rewrite <- n_requests_control, Hc.
  unfold n_requests in *. simpl. rewrite Hg. simpl. rewrite Hrest. reflexivity.
Qed.

(** The attempts from [k] on, [n] of them, when [k] requests have been sent:
    the loop ends normally, and what it does to the outside world is the
    schedule. *)
Lemma backoff_attempts_run (p : backoff_plan) (net : network) (n : nat) :
  forall (k : nat) (h : history),
    n_requests h = k ->
    let y := for_each (map Z.of_nat (seq k n)) (backoff_attempt p) net tt h in
    outcome y = Ok tt /\
    control (trace y) = control h ++ backoff_schedule p net k n.
Proof.
  induction n as [|n IH]; intros k h Hk; cbv zeta.
  - simpl. unfold_script. simpl. unfold backoff_schedule. simpl.
    rewrite app_nil_r. split; reflexivity.
  - simpl map. rewrite for_each_cons by apply backoff_attempt_one_probe.
    rewrite Hk.
    destruct (backoff_attempt_alone p (Z.of_nat k) (net k)) as (evs & Hrun & Hc).
    rewrite Hrun. unfold backoff_schedule. simpl attempts_made.
    assert (Hone : n_requests evs = 1%nat).
    { eapply n_requests_of_control; [exact Hc | reflexivity |].
      destruct (status_is 429 (net k) && (Z.of_nat k <? max_retries p - 1));
        reflexivity. }
    destruct (backoff_success (net k)).
    + unfold outcome, trace. simpl. rewrite control_app, Hc, app_nil_r.
      split; reflexivity.
    + destruct (IH (S k) (h ++ evs)) as (Hout & Hctl).
      { rewrite n_requests_app, Hk, Hone. lia. }
      split; [exact Hout|].
      rewrite Hctl, control_app, Hc. unfold backoff_schedule.
      simpl seq. simpl flat_map. rewrite <- !app_assoc. reflexivity.
Qed.

(** The whole function, for every plan and every network. *)
Lemma backoff_strategy_run (p : backoff_plan) (net : network) :
  outcome (backoff_strategy p net tt []) = Ok tt /\
  control (trace (backoff_strategy p net tt []))
  = backoff_schedule p net 0 (Z.to_nat (max_retries p)).
Proof.
  unfold backoff_strategy. unfold bind at 1 2 3 4. unfold print. simpl app.
  rewrite range_seq.
  apply (backoff_attempts_run p net (Z.to_nat (max_retries p)) 0). reflexivity.
Qed.

(** ** [APIClient.get] and the retry loop of [example_safe_request] *)

(** [APIClient.get] raises on every response with a status of 400 or more. *)
Lemma get_answer_raises (self : APIClient) (r : response) :
  status_code r >= 400 -> exists e, get_answer self (Ok r) = Raise e.
Proof.
  intro Hs. unfold get_answer, get. unfold_script. simpl.
  destruct (Z.geb_spec (status_code r) 400) as [_|Hlt]; [|lia]. simpl.
  destruct (String.eqb (content r) EmptyString); simpl; [eexists; reflexivity|].
  destruct (json r) as [v|e]; simpl.
  - destruct (dict_get v "error" (PyStr "Unknown error")) as [w|e]; simpl.
    + eexists; reflexivity.
    + destruct e as [c m]; destruct c; eexists; reflexivity.
  - destruct e as [c m]; destruct c; eexists; reflexivity.
Qed.

(** What it returns is the parsed body of a response with a status below
    400. *)
Lemma get_answer_returns (self : APIClient) (x : result response) (v : value) :
  get_answer self x = Ok v ->
  exists r, x = Ok r /\ status_code r < 400 /\ json r = Ok v.
Proof.
  unfold get_answer, get. unfold_script. simpl.
  destruct x as [r|e]; simpl.
  - destruct (Z.geb_spec (status_code r) 400) as [Hge|Hlt]; simpl.
    + destruct (String.eqb (content r) EmptyString); simpl; [discriminate|].
      destruct (json r) as [w|e]; simpl.
      * destruct (dict_get w "error" (PyStr "Unknown error")) as [u|e]; simpl;
          [discriminate|].
        destruct e as [c m]; destruct c; discriminate.
      * destruct e as [c m]; destruct c; discriminate.
    + destruct (json r) as [w|e] eqn:Hjson; simpl.
      * intro H; inversion H; subst. exists r. repeat split; assumption.
      * destruct e as [c m]; destruct c; discriminate.
  - destruct e as [c m]; destruct c; discriminate.
Qed.

(** It returns whenever the status is below 400 and the body is JSON. *)
Lemma get_answer_below_400 (self : APIClient) (r : response) (v : value) :
  status_code r < 400 -> json r = Ok v -> get_answer self (Ok r) = Ok v.
Proof.
  intros Hs Hjson. unfold get_answer, get. unfold_script. simpl.
  destruct (Z.geb_spec (status_code r) 400) as [Hge|_]; [lia|]. simpl.
  rewrite Hjson. reflexivity.
Qed.

(** The attempts that end the retry loop are those whose [try] block runs to
    its [break]. *)
Lemma retry_success_cases (self : APIClient) (x : result response) :
  (retry_success x = true /\
   exists v w, get_answer self x = Ok v /\ subscript v "count" = Ok w) \/
  (retry_success x = false /\
   ((exists e, get_answer self x = Raise e) \/
    (exists v e, get_answer self x = Ok v /\ subscript v "count" = Raise e))).
Proof.
  destruct x as [r|e].
  - unfold retry_success.
    destruct (Z.ltb_spec (status_code r) 400) as [Hlt|Hge]; simpl.
    + unfold has_count. destruct (json r) as [v|e] eqn:Hjson.
      * rewrite (get_answer_below_400 self r v Hlt Hjson).
        destruct v; simpl;
          try (right; split; [reflexivity|]; right; do 2 eexists;
               split; reflexivity).
        destruct (lookup "count" items) eqn:Hcount.
        -- left. split; [reflexivity|]. do 2 eexists.
           split; [reflexivity|]. simpl. rewrite Hcount. reflexivity.
        -- right. split; [reflexivity|]. right. do 2 eexists.
           split; [reflexivity|]. simpl. rewrite Hcount. reflexivity.
      * right. split; [reflexivity|]. left.
        destruct (get_answer self (Ok r)) as [v|e'] eqn:Hget; [|eexists; reflexivity].
        apply get_answer_returns in Hget. destruct Hget as (r' & Hr & _ & Hj).
        inversion Hr; subst. congruence.
    + right. split; [reflexivity|]. left. apply get_answer_raises. lia.
  - right. split; [reflexivity|]. left.
    destruct (get_answer self (Raise e)) as [v|e'] eqn:Hget; [|eexists; reflexivity].
    apply get_answer_returns in Hget. destruct Hget as (r' & Hr & _).
    discriminate.
Qed.

(** One attempt of the retry loop: it never raises, it ends the loop exactly
    when [APIClient.get] returns a body with a [count], it sends one request,
    and after anything else, when attempts remain, it sleeps [retry_delay]
    and multiplies it. *)
Lemma retry_attempt_alone (client : APIClient) (p : backoff_plan) (attempt : Z)
    (x : result response) (retry_delay : Z) :
  exists evs,
    alone (retry_attempt client p attempt) x retry_delay
    = (Ok (if retry_success x then Break else Continue),
       (if negb (retry_success x) && (attempt <? max_retries p - 1)
        then retry_delay * multiplier p else retry_delay),
       evs) /\
    control evs =
    EvGet (String.append (base_url client) "/api/products")
      (Some [("count", PyInt 2)]) (Some (timeout client)) ::
    (if negb (retry_success x) && (attempt <? max_retries p - 1)
     then [EvSleep (inject_Z retry_delay)]
     else []).
Proof.
  unfold retry_attempt, alone, try_, bind. rewrite get_run. cbv beta.
  destruct (retry_success_cases client x)
    as [(Hs & v & w & Hget & Hsub) | (Hs & [(e & Hget) | (v & e & Hget & Hsub)])];
    rewrite Hs, Hget; unfold_script; simpl; rewrite ?Hsub; simpl;
    rewrite ?isinstance_Exception;
    try destruct (attempt <? max_retries p - 1); simpl;
    eexists; split; reflexivity.
Qed.

Lemma delay_0 (p : backoff_plan) : delay p 0 = base_delay p.
Proof. unfold delay. rewrite Z.pow_0_r. lia. Qed.

Lemma delay_succ (p : backoff_plan) (k : nat) :
  delay p (Z.of_nat (S k)) = delay p (Z.of_nat k) * multiplier p.
Proof.
  unfold delay. rewrite Nat2Z.inj_succ, Z.pow_succ_r by lia. ring.
Qed.

(** The attempts from [k] on: when the loop reaches attempt [k], its
    [retry_delay] is [delay p k]. *)
Lemma retry_attempts_run (client : APIClient) (p : backoff_plan) (net : network)
    (n : nat) :
  forall (k : nat) (h : history),
    n_requests h = k ->
    (k + n)%nat = Z.to_nat (max_retries p) ->
    let y := for_each (map Z.of_nat (seq k n)) (retry_attempt client p) net
               (delay p (Z.of_nat k)) h in
    outcome y = Ok tt /\
    control (trace y) = control h ++ retry_schedule client p net k n.
Proof.
  induction n as [|n IH]; intros k h Hk Hn; cbv zeta.
  - simpl. unfold_script. simpl. unfold retry_schedule. simpl.
    rewrite app_nil_r. split; reflexivity.
  - simpl map. rewrite for_each_cons by apply retry_attempt_one_probe.
    rewrite Hk.
    destruct (retry_attempt_alone client p (Z.of_nat k) (net k) (delay p (Z.of_nat k)))
      as (evs & Hrun & Hc).
    rewrite Hrun. unfold retry_schedule. simpl attempts_made.
    assert (Hone : n_requests evs = 1%nat).
    { eapply n_requests_of_control; [exact Hc | reflexivity |].
      destruct (negb (retry_success (net k)) && (Z.of_nat k <? max_retries p - 1));
        reflexivity. }
    destruct (retry_success (net k)) eqn:Hs.
    + unfold outcome, trace. simpl. rewrite control_app, Hc, Hs. simpl.
      split; reflexivity.
    + simpl negb in *. simpl andb in *.
      destruct (Z.ltb_spec (Z.of_nat k) (max_retries p - 1)) as [Hmore|Hlast].
      * rewrite <- delay_succ.
        destruct (IH (S k) (h ++ evs)) as (Hout & Hctl).
        { rewrite n_requests_app, Hk, Hone. lia. }
        { lia. }
        split; [exact Hout|].
        rewrite Hctl, control_app, Hc. unfold retry_schedule.
        simpl seq. simpl flat_map. rewrite Hs. simpl negb. simpl andb.
        destruct (Z.ltb_spec (Z.of_nat k) (max_retries p - 1)) as [_|Hge]; [|lia].
        rewrite <- !app_assoc. reflexivity.
      * assert (n = 0%nat) by lia. subst n.
        simpl. unfold_script. simpl. rewrite control_app, Hc, Hs.
        destruct (Z.ltb_spec (Z.of_nat k) (max_retries p - 1)) as [Hlt|_]; [lia|].
        simpl. split; reflexivity.
Qed.

(** The whole loop, for every client, plan and network. *)
Lemma retry_logic_run (client : APIClient) (p : backoff_plan) (net : network)
    (retry_delay : Z) :
  outcome (retry_logic client p net retry_delay []) = Ok tt /\
  control (trace (retry_logic client p net retry_delay []))
  = retry_schedule client p net 0 (Z.to_nat (max_retries p)).
Proof.
  unfold retry_logic. unfold bind at 1 2 3. unfold print, write. simpl app.
  rewrite range_seq, <- delay_0.
  apply (retry_attempts_run client p net (Z.to_nat (max_retries p)) 0);
    reflexivity.
Qed.

(** ** Attempts and schedules *)







(** ** The backoff loops *)






(** C6: the code breaks the early return.  A 200 is a Success, and the loop
    says so; but its [break] stands after [data['count']] inside the [try].
    On a 200 whose JSON body has no [count] the attempt prints its success
    line, the [KeyError] goes to the handler, and the loop makes the next
    attempt: all five requests are sent (never more: the bound of the claim
    holds). *)
Theorem C6_a_success_without_count_does_not_end_the_loop :
  classify_4_1 (Ok empty_200) = Success /\
  printed (trace (backoff_strategy (mk_plan 2 1 2) (always (Ok empty_200)) tt []))
  = [[NL; rule "=" 60];
     [Lit "Exponential Backoff Strategy"];
     [rule "=" 60];
     [NL; Lit "Demonstrating how to handle rate limits gracefully..."];
     [NL; Lit "Attempt "; Int 1; Lit ": ✓ Success"];
     [NL; Lit "Attempt "; Int 1; Lit ": ✗ Error: "; Lit "'"; Lit "count"; Lit "'"];
     [NL; Lit "Attempt "; Int 2; Lit ": ✓ Success"];
     [NL; Lit "Attempt "; Int 2; Lit ": ✗ Error: "; Lit "'"; Lit "count"; Lit "'"]] /\
  n_requests (trace (demonstrate_backoff_strategy (always (Ok empty_200)) tt [])) = 5%nat /\
  sleeps (trace (demonstrate_backoff_strategy (always (Ok empty_200)) tt [])) = [].
Proof. vm_compute. repeat split. Qed.


(** C7: for every plan with a positive base delay and a multiplier above 1,
    [delay] is strictly increasing in the attempt, and the delay of attempt 0
    is the base delay. *)
Theorem C7_delay_strictly_increasing (p : backoff_plan) :
  base_delay p > 0 -> multiplier p > 1 ->
  (forall a b, 0 <= a -> a < b -> delay p a < delay p b) /\
  delay p 0 = base_delay p.
Proof.
  intros Hbase Hmult. split; [|apply delay_0].
  intros a b Ha Hab. unfold delay.
  apply Z.mul_lt_mono_pos_l; [lia|].
  apply Z.pow_lt_mono_r; lia.
Qed.

Lemma C7_delay_strictly_increasing_witness :
  (forall a b, 0 <= a -> a < b -> delay (mk_plan 5 1 2) a < delay (mk_plan 5 1 2) b) /\
  delay (mk_plan 5 1 2) 0 = 1.
Proof. apply (C7_delay_strictly_increasing (mk_plan 5 1 2)); simpl; lia. Defined.









(** ** [test_rate_limit_recovery] *)

(** Requests whose responses are dropped: when each is answered, the loop
    sends them all. *)
Lemma dropped_requests_run (xs : list Z) (net : network) :
  forall h : history,
    (forall j, (j < List.length xs)%nat -> exists r, net (n_requests h + j)%nat = Ok r) ->
    for_each xs (fun _ : Z =>
      bind (requests_get (L := unit) users_url (Some [("count", PyInt 1)]) None)
           (fun _ => ret Continue)) net tt h
    = (Ok tt, tt, h ++ repeat probe (List.length xs)).
Proof.
  induction xs as [|x xs IH]; intros h Hall.
  - simpl. unfold ret. rewrite app_nil_r. reflexivity.
  - simpl for_each. unfold bind at 1. unfold bind at 1. unfold requests_get at 1.
    destruct (Hall 0%nat) as (r & Hr); [simpl; lia|].
    rewrite Nat.add_0_r in Hr. rewrite Hr. unfold ret at 1.
    rewrite IH.
    + simpl repeat. rewrite <- app_assoc. reflexivity.
    + intros j Hj. rewrite n_requests_app.
      change (n_requests [EvGet users_url (Some [("count", PyInt 1)]) None])
        with 1%nat.
      replace (n_requests h + 1 + j)%nat with (n_requests h + S j)%nat by lia.
      apply Hall. simpl. lia.
Qed.

(** The countdown does not look at the network. *)
Lemma wait_for_reset_run (net : network) (h : history) :
  wait_for_reset net tt h = (Ok tt, tt, h ++ countdown).
Proof.
  unfold wait_for_reset, countdown.
  change (range3 65 0 (-5)) with [65; 60; 55; 50; 45; 40; 35; 30; 25; 20; 15; 10; 5].
  unfold for_each. unfold_script. simpl. rewrite <- !app_assoc. reflexivity.
Qed.

(** The run when the request after the 35 of step 1 is not answered by a
    429: the function reports it and ends. *)
Lemma recovery_run_not_limited (net : network) :
  (forall k, (k < 36)%nat -> exists r, net k = Ok r) ->
  status_is 429 (net 35%nat) = false ->
  test_rate_limit_recovery net tt []
  = (Ok tt, tt, saturation ++ [EvPrint [Lit "⚠ Was not rate limited initially"]]).
Proof.
  intros Hall H429.
  destruct (Hall 35%nat) as (r35 & H35); [lia|].
  rewrite H35 in H429. unfold status_is in H429.
  unfold test_rate_limit_recovery.
  unfold bind at 1 2 3 4 5. unfold print at 1 2 3 4. simpl app.
  unfold hit_rate_limit.
  rewrite dropped_requests_run.
  2:{ intros j Hj. rewrite length_range in Hj. apply Hall. simpl in *. lia. }
  rewrite length_range. unfold bind at 1. unfold requests_get at 1.
  match goal with |- context [net (n_requests ?h)] =>
    change (net (n_requests h)) with (net 35%nat) end.
  rewrite H35, H429. reflexivity.
Qed.

(** The run when it is answered by a 429: the countdown, one more request,
    and a line on its answer. *)
Lemma recovery_run_limited (net : network) :
  (forall k, (k < 36)%nat -> exists r, net k = Ok r) ->
  status_is 429 (net 35%nat) = true ->
  trace (test_rate_limit_recovery net tt [])
  = saturation
    ++ [EvPrint [Lit "✓ Rate limited as expected"];
        EvPrint [NL; Lit "Step 2: Waiting 65 seconds for rate limit to reset..."]]
    ++ countdown
    ++ [EvPrint [NL; Lit "Step 3: Attempting request after waiting..."]; probe]
    ++ match net 36%nat with
       | Ok r =>
           [EvPrint
              (if status_code r =? 200
               then [Lit "✓ Request successful! Rate limit has reset."]
               else [Lit "✗ Still rate limited (Status: ";
                     Int (status_code r); Lit ")"])]
       | Raise _ => []
       end.
Proof.
  intros Hall H429.
  destruct (Hall 35%nat) as (r35 & H35); [lia|].
  rewrite H35 in H429. unfold status_is in H429.
  unfold test_rate_limit_recovery.
  unfold bind at 1 2 3 4 5. unfold print at 1 2 3 4. simpl app.
  unfold hit_rate_limit.
  rewrite dropped_requests_run.
  2:{ intros j Hj. rewrite length_range in Hj. apply Hall. simpl in *. lia. }
  rewrite length_range. unfold bind at 1. unfold requests_get at 1.
  match goal with |- context [net (n_requests ?h)] =>
    change (net (n_requests h)) with (net 35%nat) end.
  rewrite H35, H429.
  unfold bind at 1 2 3. unfold print at 1 2.
  rewrite wait_for_reset_run.
  unfold bind at 1 2. unfold print at 1. unfold requests_get.
  match goal with |- context [net (n_requests ?h)] =>
    change (net (n_requests h)) with (net 36%nat) end.
  destruct (net 36%nat) as [r|e]; [destruct (status_code r =? 200)|];
    reflexivity.
Qed.

(** C4, as the specification words it, fails on the code: after the 429 the
    function sleeps thirteen times, 5 seconds each, 65 seconds in all, not
    once for the 60 seconds of the window. *)
Lemma C4_the_wait_is_thirteen_sleeps_of_five_seconds :
  sleeps (trace (test_rate_limit_recovery (only 35 (Ok throttled_429) (Ok users_200)) tt []))
  = repeat 5%Q 13 /\
  total_sleep (trace (test_rate_limit_recovery
                        (only 35 (Ok throttled_429) (Ok users_200)) tt []))
  = 65%Q /\
  ~ (65 == softLimitWindowSeconds)%Q.
Proof. repeat split. discriminate. Qed.

(** C4, amended: after the 429 that follows step 1, [test_rate_limit_recovery]
    sleeps 13 times 5 seconds, 65 seconds in all (the window of 60 seconds
    and 5 more), sends no request between these sleeps, and then sends
    exactly one request.  Requests and sleeps of the whole run are: the 36
    requests up to the 429, the 13 sleeps, the one request.  Each of the 13
    sleeps comes right after its line of the countdown, from 65 seconds
    remaining down to 5, and nothing else happens between the first of
    these lines and the last sleep; before them the function has sent 36
    requests and has not slept, after them it sends the one request and does
    not sleep. *)
Theorem C4_recovery_wait (net : network) :
  (forall k, (k < 36)%nat -> exists r, net k = Ok r) ->
  status_is 429 (net 35%nat) = true ->
  control (trace (test_rate_limit_recovery net tt []))
  = repeat probe 36 ++ repeat (EvSleep 5) 13 ++ [probe] /\
  total_sleep (trace (test_rate_limit_recovery net tt [])) = 65%Q /\
  exists before behind : history,
    trace (test_rate_limit_recovery net tt [])
    = before
      ++ flat_map
           (fun remaining : Z =>
              [EvPrint [Lit "  "; Int remaining; Lit " seconds remaining..."];
               EvSleep 5])
           [65; 60; 55; 50; 45; 40; 35; 30; 25; 20; 15; 10; 5]
      ++ behind /\
    n_requests before = 36%nat /\ sleeps before = [] /\
    n_requests behind = 1%nat /\ sleeps behind = [].
Proof.
  intros Hall H429. rewrite (recovery_run_limited net Hall H429).
  split; [|split].
  - rewrite !control_app. destruct (net 36%nat) as [r|e]; reflexivity.
  - unfold total_sleep. rewrite !sleeps_app.
    destruct (net 36%nat) as [r|e]; reflexivity.
  - rewrite app_assoc.
    match goal with |- context [(?b ++ countdown ++ ?a)] =>
      exists b, a end.
    split; [reflexivity|]. split; [reflexivity|]. split; [reflexivity|].
    rewrite n_requests_app, sleeps_app.
    destruct (net 36%nat) as [r|e]; split; reflexivity.
Qed.

Lemma C4_recovery_wait_witness :
  control (trace (test_rate_limit_recovery
                    (only 35 (Ok throttled_429) (Ok users_200)) tt []))
  = repeat probe 36 ++ repeat (EvSleep 5) 13 ++ [probe] /\
  total_sleep (trace (test_rate_limit_recovery
                        (only 35 (Ok throttled_429) (Ok users_200)) tt []))
  = 65%Q /\
  exists before behind : history,
    trace (test_rate_limit_recovery
             (only 35 (Ok throttled_429) (Ok users_200)) tt [])
    = before
      ++ flat_map
           (fun remaining : Z =>
              [EvPrint [Lit "  "; Int remaining; Lit " seconds remaining..."];
               EvSleep 5])
           [65; 60; 55; 50; 45; 40; 35; 30; 25; 20; 15; 10; 5]
      ++ behind /\
    n_requests before = 36%nat /\ sleeps before = [] /\
    n_requests behind = 1%nat /\ sleeps behind = [].
Proof.
  apply (C4_recovery_wait (only 35 (Ok throttled_429) (Ok users_200))).
  - intros k Hk. unfold only. destruct (Nat.eqb k 35); eexists; reflexivity.
  - reflexivity.
Defined.

(** C5, as the specification words it, fails on the code: what the burst of
    step 1 got does not decide.  A burst with five 429 in it is followed by
    "was not rate limited" when the request after it gets a 200; a burst of
    35 responses 200 is followed by "rate limited as expected" when the
    request after it gets a 429. *)
Lemma C5_the_burst_does_not_decide :
  (existsb (status_is 429)
     (map (fun k => if (30 <=? k)%nat && (k <? 35)%nat
                    then Ok throttled_429 else Ok users_200) (seq 0 35)) = true /\
   reported "✓ Rate limited as expected"
     (trace (test_rate_limit_recovery
               (fun k => if (30 <=? k)%nat && (k <? 35)%nat
                         then Ok throttled_429 else Ok users_200) tt [])) = false /\
   reported "⚠ Was not rate limited initially"
     (trace (test_rate_limit_recovery
               (fun k => if (30 <=? k)%nat && (k <? 35)%nat
                         then Ok throttled_429 else Ok users_200) tt [])) = true) /\
  (existsb (status_is 429)
     (map (only 35 (Ok throttled_429) (Ok users_200)) (seq 0 35)) = false /\
   reported "✓ Rate limited as expected"
     (trace (test_rate_limit_recovery
               (only 35 (Ok throttled_429) (Ok users_200)) tt [])) = true).
Proof. vm_compute. repeat split. Qed.

(** C5, amended: when the 35 requests of step 1 and the request after them
    are answered, [test_rate_limit_recovery] goes on to the wait exactly when
    the answer to that one request after the burst is a 429, and reports
    "was not rate limited" otherwise.  The responses of the burst itself are
    dropped. *)
Theorem C5_saturation_is_decided_by_the_request_after_the_burst (net : network) :
  (forall k, (k < 36)%nat -> exists r, net k = Ok r) ->
  reported "✓ Rate limited as expected" (trace (test_rate_limit_recovery net tt []))
  = status_is 429 (net 35%nat) /\
  reported "⚠ Was not rate limited initially" (trace (test_rate_limit_recovery net tt []))
  = negb (status_is 429 (net 35%nat)).
Proof.
  intro Hall. destruct (status_is 429 (net 35%nat)) eqn:H429.
  - rewrite (recovery_run_limited net Hall H429).
    unfold reported. rewrite !printed_app, !existsb_app.
    destruct (net 36%nat) as [r|e]; [destruct (status_code r =? 200)|];
      split; reflexivity.
  - rewrite (recovery_run_not_limited net Hall H429). split; reflexivity.
Qed.

Lemma C5_witness :
  reported "✓ Rate limited as expected"
    (trace (test_rate_limit_recovery (only 35 (Ok throttled_429) (Ok users_200)) tt []))
  = true /\
  reported "⚠ Was not rate limited initially"
    (trace (test_rate_limit_recovery (only 35 (Ok throttled_429) (Ok users_200)) tt []))
  = false.
Proof.
  apply (C5_saturation_is_decided_by_the_request_after_the_burst
           (only 35 (Ok throttled_429) (Ok users_200))).
  intros k Hk. unfold only. destruct (Nat.eqb k 35); eexists; reflexivity.
Defined.

(** ** Scripts as parts of a longer run *)






















(** ** The report of [test_rate_limiting] *)

Lemma reported_app (s : string) (h1 h2 : history) :
  reported s (h1 ++ h2) = reported s h1 || reported s h2.
Proof. unfold reported. rewrite printed_app. apply existsb_app. Qed.





(** ** The report of [test_exempt_endpoints] *)

Lemma sent_successful_app (h1 h2 : history) :
  sent_successful (h1 ++ h2) = sent_successful h1 ++ sent_successful h2.
Proof.
  induction h1 as [|e h1 IH]; simpl; [reflexivity|].
  destruct (sent_successful_line e); rewrite IH; reflexivity.
Qed.

(** The inner loop counts the answers with status 200 and does nothing but
    send its requests. *)
Lemma exempt_requests_run (endpoint : string) (net : network) (xs : list Z) :
  forall (s : Z) (h : history),
    for_each xs (exempt_request endpoint) net s h
    = (Ok tt,
       s + Z.of_nat (count_from (status_is 200) net (n_requests h) (List.length xs)),
       h ++ repeat (EvGet (String.append BASE_URL endpoint) None None) (List.length xs)).
Proof.
  induction xs as [|x xs IH]; intros s h.
  - simpl. unfold ret. rewrite app_nil_r. f_equal. f_equal. lia.
  - simpl for_each. unfold bind. rewrite exempt_request_run, IH.
    rewrite n_requests_app.
    change (n_requests [EvGet (String.append BASE_URL endpoint) None None]) with 1%nat.
    rewrite Nat.add_1_r. simpl count_from. simpl List.length. simpl repeat.
    rewrite <- app_assoc. simpl app. f_equal. f_equal.
    destruct (status_is 200 (net (n_requests h))); lia.
Qed.

(** One endpoint: [successful] starts again from 0, and what is printed is
    the number of answers with status 200 among the 50 requests. *)
Lemma exempt_endpoint_run (endpoint : string) (net : network) (s : Z) (h : history) :
  exists tail,
    exempt_endpoint endpoint net s h
    = (Ok Continue,
       Z.of_nat (count_from (status_is 200) net (n_requests h) 50),
       h ++ tail) /\
    n_requests tail = 50%nat /\
    sleeps tail = [] /\
    sent_successful tail = [Z.of_nat (count_from (status_is 200) net (n_requests h) 50)] /\
    reported "✓ Endpoint is NOT rate-limited (as expected)" tail
    = (count_from (status_is 200) net (n_requests h) 50 =? 50)%nat.
Proof.
  unfold exempt_endpoint.
  unfold bind at 1 2 3 4. unfold print at 1 2. unfold write.
  rewrite exempt_requests_run.
  rewrite !n_requests_app. simpl n_requests at 2 3. rewrite !Nat.add_0_r.
  change (List.length (range 50)) with 50%nat.
  set (c := count_from (status_is 200) net (n_requests h) 50).
  unfold_script. cbv beta iota delta [fst snd].
  assert (Hverdict : (0 + Z.of_nat c =? 50) = (c =? 50)%nat).
  { destruct (Nat.eqb_spec c 50) as [Heq|Hne]; [rewrite Heq; reflexivity|].
    apply Z.eqb_neq. lia. }
  rewrite Hverdict. replace (0 + Z.of_nat c) with (Z.of_nat c) by lia.
  destruct (c =? 50)%nat; cbv beta iota; eexists;
    (split; [rewrite <- !app_assoc; reflexivity|]);
    rewrite !n_requests_app, !sleeps_app, !sent_successful_app, !reported_app;
    repeat split; reflexivity.
Qed.

(** The whole function, endpoint after endpoint. *)
Lemma test_exempt_endpoints_run (net : network) (unbound : Z) :
  let y := test_exempt_endpoints net unbound [] in
  outcome y = Ok tt /\
  n_requests (trace y) = 150%nat /\
  sleeps (trace y) = [] /\
  sent_successful (trace y)
  = [Z.of_nat (count_from (status_is 200) net 0 50);
     Z.of_nat (count_from (status_is 200) net 50 50);
     Z.of_nat (count_from (status_is 200) net 100 50)] /\
  reported "✓ Endpoint is NOT rate-limited (as expected)" (trace y)
  = existsb (fun first => (count_from (status_is 200) net first 50 =? 50)%nat)
      [0; 50; 100]%nat.
Proof.
  intro y.
  assert (Hy : y = test_exempt_endpoints net unbound []) by reflexivity.
  clearbody y.
  unfold test_exempt_endpoints in Hy.
  unfold bind at 1 2 3 4 in Hy. unfold print at 1 2 3 4 in Hy. simpl app in Hy.
  unfold exempt_endpoints, for_each in Hy. unfold bind at 1 in Hy.
  match type of Hy with context [exempt_endpoint _ net _ ?h] =>
    set (title := h) in * end.
  assert (Htitle : n_requests title = 0%nat /\ sleeps title = [] /\
                   sent_successful title = [] /\
                   reported "✓ Endpoint is NOT rate-limited (as expected)" title
                   = false) by (repeat split; reflexivity).
  destruct Htitle as (Hn0 & Hs0 & Hc0 & Hr0). clearbody title.
  match type of Hy with context [exempt_endpoint ?ep net ?s ?h] =>
    destruct (exempt_endpoint_run ep net s h) as (t1 & H1 & Hn1 & Hs1 & Hc1 & Hr1);
    rewrite H1 in Hy; rewrite Hn0 in * end.
  unfold bind at 1 in Hy.
  match type of Hy with context [exempt_endpoint ?ep net ?s ?h] =>
    destruct (exempt_endpoint_run ep net s h) as (t2 & H2 & Hn2 & Hs2 & Hc2 & Hr2);
    rewrite H2 in Hy;
    replace (n_requests h) with 50%nat in *
      by (rewrite n_requests_app, Hn0, Hn1; reflexivity) end.
  unfold bind at 1 in Hy.
  match type of Hy with context [exempt_endpoint ?ep net ?s ?h] =>
    destruct (exempt_endpoint_run ep net s h) as (t3 & H3 & Hn3 & Hs3 & Hc3 & Hr3);
    rewrite H3 in Hy;
    replace (n_requests h) with 100%nat in *
      by (rewrite !n_requests_app, Hn0, Hn1, Hn2; reflexivity) end.
  unfold ret in Hy. subst y. unfold outcome, trace.
  cbv beta iota delta [fst snd].
  rewrite !n_requests_app, !sleeps_app, !sent_successful_app, !reported_app.
  rewrite Hn0, Hs0, Hc0, Hr0.
  rewrite Hn1, Hn2, Hn3, Hs1, Hs2, Hs3, Hc1, Hc2, Hc3, Hr1, Hr2, Hr3.
  unfold existsb. rewrite orb_false_r, orb_false_l, !orb_assoc.
  repeat split; reflexivity.
Qed.

(** X5: for every network [test_exempt_endpoints] ends normally, sends
    exactly 150 requests and never sleeps.  The three numbers it prints are
    the numbers of answers with status 200 among requests 0 to 49, 50 to 99
    and 100 to 149: the count of one endpoint does not carry over to the
    next, and nothing of what the function did before the call enters.  A
    positive verdict is printed exactly when all 50 answers of one of the
    endpoints were 200. *)
Theorem test_exempt_endpoints_report (net : network) (unbound : Z) :
  let y := test_exempt_endpoints net unbound [] in
  outcome y = Ok tt /\
  n_requests (trace y) = 150%nat /\
  sleeps (trace y) = [] /\
  sent_successful (trace y)
  = [Z.of_nat (count_from (status_is 200) net 0 50);
     Z.of_nat (count_from (status_is 200) net 50 50);
     Z.of_nat (count_from (status_is 200) net 100 50)] /\
  reported "✓ Endpoint is NOT rate-limited (as expected)" (trace y)
  = existsb (fun first => (count_from (status_is 200) net first 50 =? 50)%nat)
      [0; 50; 100]%nat.
Proof. exact (test_exempt_endpoints_run net unbound). Qed.

(** ** [test_rate_limit_recovery] when the transport fails *)

(** Requests whose responses are dropped: the first that raises ends the
    loop with its exception. *)
Lemma dropped_requests_raise (xs : list Z) (net : network) (e : exn) :
  forall (k : nat) (h : history),
    (k < List.length xs)%nat ->
    (forall j, (j < k)%nat -> exists r, net (n_requests h + j)%nat = Ok r) ->
    net (n_requests h + k)%nat = Raise e ->
    for_each xs (fun _ : Z =>
      bind (requests_get (L := unit) users_url (Some [("count", PyInt 1)]) None)
           (fun _ => ret Continue)) net tt h
    = (Raise e, tt, h ++ repeat probe (S k)).
Proof.
  induction xs as [|x xs IH]; intros k h Hk Hbefore Hraise; [simpl in Hk; lia|].
  simpl for_each. unfold bind at 1. unfold bind at 1. unfold requests_get at 1.
  destruct k as [|k].
  - rewrite Nat.add_0_r in Hraise. rewrite Hraise. reflexivity.
  - destruct (Hbefore 0%nat) as (r & Hr); [lia|].
    rewrite Nat.add_0_r in Hr. rewrite Hr. unfold ret at 1.
    rewrite (IH k).
    + simpl repeat. rewrite <- app_assoc. reflexivity.
    + simpl in Hk. lia.
    + intros j Hj. rewrite n_requests_app.
      change (n_requests [EvGet users_url (Some [("count", PyInt 1)]) None])
        with 1%nat.
      replace (n_requests h + 1 + j)%nat with (n_requests h + S j)%nat by lia.
      apply Hbefore. lia.
    + rewrite n_requests_app.
      change (n_requests [EvGet users_url (Some [("count", PyInt 1)]) None])
        with 1%nat.
      replace (n_requests h + 1 + k)%nat with (n_requests h + S k)%nat by lia.
      exact Hraise.
Qed.

(** X6: [test_rate_limit_recovery] catches nothing.  When request [k] is the
    first of its first 36 that the transport fails, the function ends with
    that exception right after sending it: [k + 1] requests, no sleep, and no
    line after "Step 1". *)
Theorem recovery_stops_at_the_first_failure (net : network) (k : nat) (e : exn) :
  (k < 36)%nat ->
  (forall j, (j < k)%nat -> exists r, net j = Ok r) ->
  net k = Raise e ->
  test_rate_limit_recovery net tt []
  = (Raise e, tt,
     [EvPrint [NL; rule "=" 60];
      EvPrint [Lit "Rate Limit Recovery Test"];
      EvPrint [rule "=" 60];
      EvPrint [NL; Lit "Step 1: Hitting rate limit..."]]
     ++ repeat probe (S k)).
Proof.
  intros Hk Hbefore Hraise.
  unfold test_rate_limit_recovery.
  unfold bind at 1 2 3 4 5. unfold print at 1 2 3 4. simpl app.
  unfold hit_rate_limit.
  destruct (Nat.eq_dec k 35) as [Hlast|Hburst].
  - subst k. rewrite dropped_requests_run.
    2:{ intros j Hj. rewrite length_range in Hj. apply Hbefore. simpl in *. lia. }
    rewrite length_range. unfold bind at 1. unfold requests_get at 1.
    match goal with |- context [net (n_requests ?h)] =>
      change (net (n_requests h)) with (net 35%nat) end.
    rewrite Hraise. reflexivity.
  - rewrite (dropped_requests_raise (range 35) net e k).
    + reflexivity.
    + rewrite length_range. simpl. lia.
    + intros j Hj. apply Hbefore. exact Hj.
    + exact Hraise.
Qed.

Lemma recovery_stops_at_the_first_failure_witness :
  test_rate_limit_recovery (only 2 (Raise refused) (Ok users_200)) tt []
  = (Raise refused, tt,
     [EvPrint [NL; rule "=" 60];
      EvPrint [Lit "Rate Limit Recovery Test"];
      EvPrint [rule "=" 60];
      EvPrint [NL; Lit "Step 1: Hitting rate limit..."]]
     ++ repeat probe 3).
Proof.
  apply (recovery_stops_at_the_first_failure (only 2 (Raise refused) (Ok users_200)) 2).
  - lia.
  - intros j Hj. destruct j as [|[|j]]; [eexists; reflexivity | eexists; reflexivity | lia].
  - reflexivity.
Defined.

(** X7: when the 36 requests up to the 429 and the request after the wait
    are answered, [test_rate_limit_recovery] ends normally after 37 requests,
    and it reports the recovery exactly when that last answer has status
    200.  Every other status, a 429 or not, is reported as "still rate
    limited" with the status in the line. *)
Theorem recovery_verdict (net : network) (r : response) :
  (forall k, (k < 36)%nat -> exists r', net k = Ok r') ->
  status_is 429 (net 35%nat) = true ->
  net 36%nat = Ok r ->
  let y := test_rate_limit_recovery net tt [] in
  outcome y = Ok tt /\
  n_requests (trace y) = 37%nat /\
  reported "✓ Request successful! Rate limit has reset." (trace y)
  = (status_code r =? 200) /\
  last (printed (trace y)) []
  = (if status_code r =? 200
     then [Lit "✓ Request successful! Rate limit has reset."]
     else [Lit "✗ Still rate limited (Status: "; Int (status_code r); Lit ")"]).
Proof.
  intros Hall H429 H36 y.
  assert (Hout : outcome y = Ok tt).
  { subst y. destruct (Hall 35%nat) as (r35 & H35); [lia|].
    rewrite H35 in H429. unfold status_is in H429.
    unfold test_rate_limit_recovery.
    unfold bind at 1 2 3 4 5. unfold print at 1 2 3 4. simpl app.
    unfold hit_rate_limit.
    rewrite dropped_requests_run.
    2:{ intros j Hj. rewrite length_range in Hj. apply Hall. simpl in *. lia. }
    rewrite length_range. unfold bind at 1. unfold requests_get at 1.
    match goal with |- context [net (n_requests ?h)] =>
      change (net (n_requests h)) with (net 35%nat) end.
    rewrite H35, H429.
    unfold bind at 1 2 3. unfold print at 1 2.
    rewrite wait_for_reset_run.
    unfold bind at 1 2. unfold print at 1. unfold requests_get.
    match goal with |- context [net (n_requests ?h)] =>
      change (net (n_requests h)) with (net 36%nat) end.
    rewrite H36. destruct (status_code r =? 200); reflexivity. }
  split; [exact Hout|].
  subst y. rewrite (recovery_run_limited net Hall H429), H36.
  destruct (status_code r =? 200); repeat split; reflexivity.
Qed.

Lemma recovery_verdict_witness :
  outcome (test_rate_limit_recovery (only 36 (Ok error_500) (Ok throttled_429)) tt [])
  = Ok tt /\
  n_requests (trace (test_rate_limit_recovery
                       (only 36 (Ok error_500) (Ok throttled_429)) tt []))
  = 37%nat /\
  reported "✓ Request successful! Rate limit has reset."
    (trace (test_rate_limit_recovery (only 36 (Ok error_500) (Ok throttled_429)) tt []))
  = false /\
  last (printed (trace (test_rate_limit_recovery
                          (only 36 (Ok error_500) (Ok throttled_429)) tt []))) []
  = [Lit "✗ Still rate limited (Status: "; Int 500; Lit ")"].
Proof.
  apply (recovery_verdict (only 36 (Ok error_500) (Ok throttled_429)) error_500).
  - intros k Hk. unfold only. destruct (Nat.eqb k 36); eexists; reflexivity.
  - reflexivity.
  - reflexivity.
Defined.

(** ** How long the backoff loops sleep *)

Lemma Qplus_inject_Z (a b : Z) : (inject_Z a + inject_Z b)%Q = inject_Z (a + b).
Proof. unfold Qplus, inject_Z. simpl. f_equal. lia. Qed.

Lemma total_sleep_inject_Z (h : history) (zs : list Z) :
  sleeps h = map inject_Z zs ->
  total_sleep h = inject_Z (fold_right Z.add 0 zs).
Proof.
  unfold total_sleep. intro Hs. rewrite Hs. clear Hs.
  induction zs as [|z zs IH]; simpl; [reflexivity|].
  rewrite IH. apply Qplus_inject_Z.
Qed.

Lemma delay_nonneg (p : backoff_plan) (a : Z) :
  0 <= base_delay p -> 0 <= multiplier p -> 0 <= delay p a.
Proof.
  intros Hb Hm. unfold delay. apply Z.mul_nonneg_nonneg; [exact Hb|].
  apply Z.pow_nonneg. exact Hm.
Qed.

Lemma delays_upto_mono (p : backoff_plan) (n m : nat) :
  0 <= base_delay p -> 0 <= multiplier p ->
  (n <= m)%nat -> delays_upto p n <= delays_upto p m.
Proof.
  intros Hb Hm Hle. induction Hle as [|m Hle IH]; [lia|].
  simpl. pose proof (delay_nonneg p (Z.of_nat m) Hb Hm). lia.
Qed.

(** The delays of a loop that sleeps [delay p a] after some of its attempts
    [a], never after one from [bound] on, add up to no more than the delays
    of the attempts below [bound]. *)
Lemma slept_delays_bound (p : backoff_plan) (sleeps_after : nat -> bool) (bound : nat) :
  0 <= base_delay p -> 0 <= multiplier p ->
  (forall a, sleeps_after a = true -> (a < bound)%nat) ->
  forall m,
    fold_right Z.add 0
      (flat_map (fun a : nat => if sleeps_after a then [delay p (Z.of_nat a)] else [])
         (seq 0 m))
    <= delays_upto p (Nat.min m bound).
Proof.
  intros Hb Hm Hbound m. induction m as [|m IH]; [simpl; lia|].
  rewrite seq_S, flat_map_app. simpl flat_map at 2.
  assert (Hsum : forall xs ys : list Z,
             fold_right Z.add 0 (xs ++ ys)
             = fold_right Z.add 0 xs + fold_right Z.add 0 ys).
  { intros xs ys. induction xs as [|x xs IHxs]; simpl; [reflexivity|].
    rewrite IHxs. lia. }
  rewrite Hsum, app_nil_r.
  destruct (sleeps_after m) eqn:Hsleeps.
  - apply Hbound in Hsleeps.
    replace (Nat.min (S m) bound) with (S m) by lia.
    replace (Nat.min m bound) with m in IH by lia.
    simpl. lia.
  - simpl fold_right at 2.
    pose proof (delays_upto_mono p (Nat.min m bound) (Nat.min (S m) bound) Hb Hm).
    lia.
Qed.

Lemma sleeps_flat_map_schedule (p : backoff_plan) (url : string)
    (params : option (list (string * value))) (tmo : option Z)
    (sleeps_after : nat -> bool) (xs : list nat) :
  sleeps (flat_map
            (fun a : nat =>
               EvGet url params tmo ::
               (if sleeps_after a
                then [EvSleep (inject_Z (delay p (Z.of_nat a)))] else []))
            xs)
  = map inject_Z
      (flat_map (fun a : nat => if sleeps_after a then [delay p (Z.of_nat a)] else [])
         xs).
Proof.
  induction xs as [|x xs IH]; [reflexivity|].
  cbn [flat_map]. rewrite map_app. cbn [app sleeps]. rewrite sleeps_app, IH.
  destruct (sleeps_after x); reflexivity.
Qed.

(** X8: a bound on the time the two backoff loops sleep, for every network.
    With a base delay and a multiplier that are not negative, neither
    [demonstrate_backoff_strategy] nor the retry loop of
    [example_safe_request] sleeps, in all, more than the delays of the
    attempts before the last one together. *)
Theorem backoff_loops_total_sleep_bound (p : backoff_plan) (net : network) :
  0 <= base_delay p -> 0 <= multiplier p ->
  (total_sleep (trace (backoff_strategy p net tt []))
   <= inject_Z (delays_upto p (Z.to_nat (max_retries p - 1))))%Q /\
  (forall (client : APIClient) (retry_delay : Z),
     total_sleep (trace (retry_logic client p net retry_delay []))
     <= inject_Z (delays_upto p (Z.to_nat (max_retries p - 1))))%Q.
Proof.
  intros Hb Hm.
  assert (Hbound : forall (sleeps_after : nat -> bool) (m : nat),
             (forall a, sleeps_after a = true -> Z.of_nat a < max_retries p - 1) ->
             fold_right Z.add 0
               (flat_map
                  (fun a : nat => if sleeps_after a then [delay p (Z.of_nat a)] else [])
                  (seq 0 m))
             <= delays_upto p (Z.to_nat (max_retries p - 1))).
  { intros sleeps_after m Hlt.
    etransitivity.
    - apply (slept_delays_bound p sleeps_after (Z.to_nat (max_retries p - 1)) Hb Hm).
      intros a Ha. apply Hlt in Ha. lia.
    - apply delays_upto_mono; [exact Hb | exact Hm | lia]. }
  split.
  - unfold total_sleep. rewrite <- sleeps_control.
    rewrite (proj2 (backoff_strategy_run p net)).
    fold (total_sleep (backoff_schedule p net 0 (Z.to_nat (max_retries p)))).
    unfold backoff_schedule.
    rewrite (total_sleep_inject_Z _ _
               (sleeps_flat_map_schedule p _ _ _
                  (fun a : nat =>
                     status_is 429 (net a) && (Z.of_nat a <? max_retries p - 1))
                  _)).
    rewrite <- Zle_Qle. apply Hbound.
    intros a Ha. apply andb_true_iff in Ha. destruct Ha as [_ Ha].
    apply Z.ltb_lt. exact Ha.
  - intros client d. unfold total_sleep. rewrite <- sleeps_control.
    rewrite (proj2 (retry_logic_run client p net d)).
    fold (total_sleep (retry_schedule client p net 0 (Z.to_nat (max_retries p)))).
    unfold retry_schedule.
    rewrite (total_sleep_inject_Z _ _
               (sleeps_flat_map_schedule p _ _ _
                  (fun a : nat =>
                     negb (retry_success (net a)) && (Z.of_nat a <? max_retries p - 1))
                  _)).
    rewrite <- Zle_Qle. apply Hbound.
    intros a Ha. apply andb_true_iff in Ha. destruct Ha as [_ Ha].
    apply Z.ltb_lt. exact Ha.
Qed.

Lemma backoff_loops_total_sleep_bound_witness :
  (total_sleep (trace (demonstrate_backoff_strategy (always (Ok throttled_429)) tt []))
   <= 15)%Q /\
  (total_sleep (trace (example_safe_request_retry (always (Raise refused)) 0%Z []))
   <= 3)%Q.
Proof.
  split.
  - apply (proj1 (backoff_loops_total_sleep_bound (mk_plan 5 1 2)
                    (always (Ok throttled_429))
                    ltac:(simpl; lia) ltac:(simpl; lia))).
  - apply (proj2 (backoff_loops_total_sleep_bound (mk_plan 3 1 2)
                    (always (Raise refused))
                    ltac:(simpl; lia) ltac:(simpl; lia))
             (mk_client BASE_URL 10) 0).
Defined.

(** ** [main] of [rate_limit_test.py] *)





(** ** What [APIClient.get] raises *)

(** X10: the exception [APIClient.get] raises, case by case.  The call sends
    one request and touches nothing else.  The clauses are tried in their
    order: every [Timeout] gets the message of the timeout, a
    [ConnectTimeout], which is a [ConnectionError] as well, included; a
    [ConnectionError] that is not a [Timeout] gets the message of the refused
    connection; any other [RequestException] is reported as
    "Request error: " followed by its text; an exception that is neither a
    [RequestException] nor a [json.JSONDecodeError] leaves [get] as it is,
    class included.  An exception of [response.json()] is treated as if the
    transport had raised it: the [JSONDecodeError] of [requests], which is a
    [RequestException], is caught by the third clause, and "Invalid JSON
    response from API" is the message only of a [json.JSONDecodeError] that
    is not one.  A status of 400 or more gives "HTTP <status>: <reason>", the
    reason being the [error] field of the body, "Unknown error" when the body
    is empty or has no such field; a body that is JSON and not an object
    raises the [AttributeError] of [error_data.get]. *)
Theorem get_raises_case_by_case (self : APIClient) :
  (forall (L : Type) (endpoint : string) (params : option (list (string * value)))
          (net : network) (l : L) (h : history),
     get self endpoint params net l h
     = (get_answer self (net (n_requests h)), l,
        h ++ [EvGet (String.append (base_url self) endpoint) params
                (Some (timeout self))])) /\
  (forall e0, isinstance e0 requests_Timeout = true ->
     get_answer self (Raise e0)
     = Raise (mk_exn Exception
                [Lit "Request timeout after "; Int (timeout self); Lit " seconds"])) /\
  (forall e0, isinstance e0 requests_ConnectionError = true ->
     isinstance e0 requests_Timeout = false ->
     get_answer self (Raise e0)
     = Raise (mk_exn Exception
                [Lit "Could not connect to API. Is the service running?"])) /\
  (forall e0, isinstance e0 requests_RequestException = true ->
     isinstance e0 requests_Timeout = false ->
     isinstance e0 requests_ConnectionError = false ->
     get_answer self (Raise e0)
     = Raise (mk_exn Exception (Lit "Request error: " :: msg e0))) /\
  (forall e0, isinstance e0 json_JSONDecodeError = true ->
     isinstance e0 requests_RequestException = false ->
     get_answer self (Raise e0)
     = Raise (mk_exn Exception [Lit "Invalid JSON response from API"])) /\
  (forall e0, isinstance e0 requests_RequestException = false ->
     isinstance e0 json_JSONDecodeError = false ->
     get_answer self (Raise e0) = Raise e0) /\
  (forall r e, json r = Raise e ->
     status_code r < 400 \/ content r <> EmptyString ->
     get_answer self (Ok r) = get_answer self (Raise e)) /\
  (forall r, status_code r >= 400 -> content r = EmptyString ->
     get_answer self (Ok r)
     = Raise (mk_exn Exception
                [Lit "HTTP "; Int (status_code r); Lit ": ";
                 Val (PyStr "Unknown error")])) /\
  (forall r items, status_code r >= 400 -> content r <> EmptyString ->
     json r = Ok (PyDict items) ->
     get_answer self (Ok r)
     = Raise (mk_exn Exception
                [Lit "HTTP "; Int (status_code r); Lit ": ";
                 Val (match lookup "error" items with
                      | Some reason => reason
                      | None => PyStr "Unknown error"
                      end)])) /\
  (forall r v, status_code r >= 400 -> content r <> EmptyString ->
     json r = Ok v -> (forall items, v <> PyDict items) ->
     get_answer self (Ok r)
     = Raise (mk_exn AttributeError
                [Lit "'"; Lit (type_name v); Lit "' object has no attribute 'get'"])).
Proof.
  split; [intros; apply get_run|].
  split; [|split; [|split; [|split; [|split]]]];
    try (intros [c m] H; intros; unfold get_answer, get; unfold_script; simpl;
         destruct c; try discriminate; reflexivity).
  split; [|split; [|split]].
  - intros r e Hjson Hbody. unfold get_answer, get. unfold_script. simpl.
    destruct (Z.geb_spec (status_code r) 400) as [Hge|Hlt]; simpl.
    + destruct Hbody as [Hlt|Hfull]; [lia|].
      destruct (String.eqb_spec (content r) EmptyString) as [Hempty|_];
        [contradiction|]. simpl.
      rewrite Hjson. simpl. destruct e as [c m]; destruct c; reflexivity.
    + rewrite Hjson. simpl. destruct e as [c m]; destruct c; reflexivity.
  - intros r Hs Hempty. unfold get_answer, get. unfold_script. simpl.
    destruct (Z.geb_spec (status_code r) 400) as [_|Hlt]; [|lia]. simpl.
    rewrite Hempty. reflexivity.
  - intros r items Hs Hfull Hjson. unfold get_answer, get. unfold_script. simpl.
    destruct (Z.geb_spec (status_code r) 400) as [_|Hlt]; [|lia]. simpl.
    destruct (String.eqb_spec (content r) EmptyString) as [Hempty|_];
      [contradiction|]. simpl.
    rewrite Hjson. simpl. destruct (lookup "error" items); reflexivity.
  - intros r v Hs Hfull Hjson Hobject. unfold get_answer, get. unfold_script. simpl.
    destruct (Z.geb_spec (status_code r) 400) as [_|Hlt]; [|lia]. simpl.
    destruct (String.eqb_spec (content r) EmptyString) as [Hempty|_];
      [contradiction|]. simpl.
    rewrite Hjson. simpl.
    destruct v; try reflexivity. exfalso. apply (Hobject items). reflexivity.
Qed.

Lemma get_raises_case_by_case_witness :
  get_answer (mk_client BASE_URL 10) (Raise timed_out)
  = Raise (mk_exn Exception [Lit "Request timeout after "; Int 10; Lit " seconds"]) /\
  get_answer (mk_client BASE_URL 10)
    (Raise (mk_exn requests_ConnectTimeout [Lit "Connection to localhost timed out."]))
  = Raise (mk_exn Exception [Lit "Request timeout after "; Int 10; Lit " seconds"]) /\
  get_answer (mk_client BASE_URL 10) (Raise refused)
  = Raise (mk_exn Exception [Lit "Could not connect to API. Is the service running?"]) /\
  get_answer (mk_client BASE_URL 10) (Ok html_429)
  = get_answer (mk_client BASE_URL 10)
      (Raise (mk_exn requests_JSONDecodeError
                [Lit "Expecting value: line 1 column 1 (char 0)"])) /\
  get_answer (mk_client BASE_URL 10)
    (Raise (mk_exn requests_JSONDecodeError
              [Lit "Expecting value: line 1 column 1 (char 0)"]))
  = Raise (mk_exn Exception
             [Lit "Request error: "; Lit "Expecting value: line 1 column 1 (char 0)"]) /\
  get_answer (mk_client BASE_URL 10) (Ok throttled_429)
  = Raise (mk_exn Exception
             [Lit "HTTP "; Int 429; Lit ": "; Val (PyStr "Rate limit exceeded")]).
Proof.
  destruct (get_raises_case_by_case (mk_client BASE_URL 10))
    as (_ & Htimeout & Hrefused & Hrequest & _ & _ & Hjson & _ & Hhttp & _).
  split; [apply Htimeout; reflexivity|].
  split; [apply (Htimeout (mk_exn requests_ConnectTimeout
                             [Lit "Connection to localhost timed out."]));
          reflexivity|].
  split; [apply Hrefused; reflexivity|].
  split; [apply Hjson; [reflexivity | right; discriminate]|].
  split; [apply (Hrequest (mk_exn requests_JSONDecodeError
                            [Lit "Expecting value: line 1 column 1 (char 0)"]));
          reflexivity|].
  apply (Hhttp throttled_429 [("error", PyStr "Rate limit exceeded")]);
    [simpl; lia | discriminate | reflexivity].
Defined.

(** ** The examples of [example_safe_request] *)

Section Examples.

Variable IndexError : text -> exn.




End Examples.


(** ** [example_status_code_handling] *)

Section StatusCodes.

Variable json_dumps : value -> string.

(** One test case: the request goes to the status asked for, and the
    verdict is read off the status that comes back. *)
Lemma status_code_case_run (case : Z * string) (net : network) (h : history) :
  exists evs,
    status_code_case json_dumps case net tt h = (Ok Continue, tt, h ++ evs) /\
    control evs
    = [EvGet (String.append BASE_URL (String.append "/status/" (str_int (fst case))))
         (Some [("message", PyStr (snd case))]) None] /\
    reported "✓ Success" evs
    = answered_with (fun s => s =? 200) (net (n_requests h)) /\
    reported "✓ Resource created" evs
    = answered_with (fun s => s =? 201) (net (n_requests h)) /\
    reported "✗ Client error" evs
    = answered_with (fun s => (s >=? 400) && (s <? 500)) (net (n_requests h)) /\
    reported "✗ Server error" evs
    = answered_with (fun s => s >=? 500) (net (n_requests h)).
Proof.
  destruct case as [code description]. unfold status_code_case, answered_with.
  unfold_script. rewrite !n_requests_app.
  change (n_requests [EvPrint [NL; Lit description; Lit " ("; Int code; Lit ")"]])
    with 0%nat.
  change (n_requests [EvPrint [rule "-" 60]]) with 0%nat.
  rewrite !Nat.add_0_r. cbn [fst snd].
  destruct (net (n_requests h)) as [r|e]; cbv beta iota.
  - destruct (json r) as [body|e]; unfold lift; cbv beta iota.
    + set (s := status_code r).
      destruct (Z.eqb_spec s 200) as [E200|N200];
        [|destruct (Z.eqb_spec s 201) as [E201|N201];
          [|destruct (Z.geb_spec s 400) as [G400|L400];
            [destruct (Z.ltb_spec s 500) as [L500|G500]|];
            cbn [andb];
            destruct (Z.geb_spec s 500) as [G500'|L500']; try lia]];
        try (rewrite E200; change (200 =? 201) with false;
             change (200 >=? 400) with false; change (200 >=? 500) with false);
        try (rewrite E201; change (201 >=? 400) with false;
             change (201 >=? 500) with false);
        cbn [andb]; cbv beta iota;
        eexists; (split; [rewrite <- !app_assoc; reflexivity|]);
        repeat split; reflexivity.
    + unfold handler_for. rewrite isinstance_Exception. cbv beta iota.
      rewrite !andb_false_r.
      eexists. split; [rewrite <- !app_assoc; reflexivity|].
      unfold reported. cbn [app printed existsb]. rewrite !orb_false_r.
      destruct (msg e); repeat split; reflexivity.
  - unfold handler_for. rewrite isinstance_Exception. cbv beta iota.
    eexists. split; [rewrite <- !app_assoc; reflexivity|].
    unfold reported. cbn [app printed existsb]. rewrite !orb_false_r.
    destruct (msg e); repeat split; reflexivity.
Qed.

(** The loop over the test cases: no answer stops it. *)
Lemma status_code_cases_run (cases : list (Z * string)) (net : network) :
  forall h : history,
  exists evs,
    for_each cases (status_code_case json_dumps) net tt h = (Ok tt, tt, h ++ evs) /\
    control evs
    = map (fun case : Z * string =>
             EvGet (String.append BASE_URL
                      (String.append "/status/" (str_int (fst case))))
               (Some [("message", PyStr (snd case))]) None) cases /\
    (forall (line : string) (test : Z -> bool),
       In (line, test)
          [("✓ Success", fun s => s =? 200);
           ("✓ Resource created", fun s => s =? 201);
           ("✗ Client error", fun s => (s >=? 400) && (s <? 500));
           ("✗ Server error", fun s => s >=? 500)] ->
       reported line evs
       = existsb (fun k => answered_with test (net k))
           (seq (n_requests h) (List.length cases))).
Proof.
  induction cases as [|case cases IH]; intro h.
  - exists []. cbn [for_each]. unfold ret. rewrite app_nil_r.
    split; [reflexivity|]. split; [reflexivity|]. intros; reflexivity.
  - cbn [for_each]. unfold bind at 1.
    destruct (status_code_case_run case net h)
      as (evs1 & Hrun1 & Hc1 & H200 & H201 & H4xx & H5xx).
    rewrite Hrun1. cbv beta iota.
    destruct (IH (h ++ evs1)) as (evs2 & Hrun2 & Hc2 & Hrep2).
    assert (Hn : n_requests (h ++ evs1) = S (n_requests h)).
    { rewrite n_requests_app, <- (n_requests_control evs1), Hc1.
      change (n_requests [_]) with 1%nat. lia. }
    rewrite Hn in Hrep2.
    exists (evs1 ++ evs2). rewrite Hrun2, app_assoc.
    split; [reflexivity|]. split; [rewrite control_app, Hc1, Hc2; reflexivity|].
    intros line test Hin. rewrite reported_app, (Hrep2 line test Hin).
    cbn [List.length seq existsb]. f_equal.
    cbn [In] in Hin.
    destruct Hin as [Hin|[Hin|[Hin|[Hin|[]]]]]; inversion Hin; subst; assumption.
Qed.

End StatusCodes.

(** The whole function: its requests and its verdicts. *)
Lemma example_status_code_handling_run (json_dumps : value -> string)
    (net : network) :
  let y := example_status_code_handling json_dumps net tt [] in
  outcome y = Ok tt /\
  control (trace y)
  = [EvGet "http://localhost:5000/status/200" (Some [("message", PyStr "OK")]) None;
     EvGet "http://localhost:5000/status/201" (Some [("message", PyStr "Created")]) None;
     EvGet "http://localhost:5000/status/400" (Some [("message", PyStr "Bad Request")]) None;
     EvGet "http://localhost:5000/status/404" (Some [("message", PyStr "Not Found")]) None;
     EvGet "http://localhost:5000/status/500"
       (Some [("message", PyStr "Internal Server Error")]) None] /\
  reported "✓ Success" (trace y)
  = existsb (fun k => answered_with (fun s => s =? 200) (net k)) (seq 0 5) /\
  reported "✓ Resource created" (trace y)
  = existsb (fun k => answered_with (fun s => s =? 201) (net k)) (seq 0 5) /\
  reported "✗ Client error" (trace y)
  = existsb (fun k => answered_with (fun s => (s >=? 400) && (s <? 500)) (net k))
      (seq 0 5) /\
  reported "✗ Server error" (trace y)
  = existsb (fun k => answered_with (fun s => s >=? 500) (net k)) (seq 0 5).
Proof.
  intro y.
  assert (Hy : y = example_status_code_handling json_dumps net tt []) by reflexivity.
  clearbody y. unfold example_status_code_handling in Hy.
  unfold bind at 1 2 3 in Hy. unfold print at 1 2 3 in Hy. simpl app in Hy.
  match type of Hy with context [for_each _ _ net tt ?h] =>
    destruct (status_code_cases_run json_dumps test_cases net h)
      as (evs & Hrun & Hctl & Hrep);
    change (n_requests h) with 0%nat in Hrep end.
  rewrite Hrun in Hy. subst y. unfold outcome, trace. cbv beta iota delta [fst snd].
  change (List.length test_cases) with 5%nat in Hrep.
  split; [reflexivity|].
  split; [rewrite control_app, Hctl; reflexivity|].
  rewrite !reported_app.
  rewrite (Hrep "✓ Success" (fun s => s =? 200)) by (cbn [In]; tauto).
  rewrite (Hrep "✓ Resource created" (fun s => s =? 201)) by (cbn [In]; tauto).
  rewrite (Hrep "✗ Client error" (fun s => (s >=? 400) && (s <? 500)))
    by (cbn [In]; tauto).
  rewrite (Hrep "✗ Server error" (fun s => s >=? 500)) by (cbn [In]; tauto).
  repeat split; reflexivity.
Qed.

(** X12: [example_status_code_handling] for every network.  It ends
    normally and sends exactly five requests, to [/status/200], [/status/201],
    [/status/400], [/status/404] and [/status/500] in this order, with the
    description as [message] and no timeout; no answer stops the loop.  A
    verdict is printed for a request that is answered with a JSON body, and it
    is decided by the status that comes back, not by the one asked for:
    "Success" for 200, "Resource created" for 201, "Client error" for 400 to
    499, "Server error" from 500 on. *)
Theorem example_status_code_handling_verdicts (json_dumps : value -> string)
    (net : network) :
  let y := example_status_code_handling json_dumps net tt [] in
  outcome y = Ok tt /\
  control (trace y)
  = [EvGet "http://localhost:5000/status/200" (Some [("message", PyStr "OK")]) None;
     EvGet "http://localhost:5000/status/201" (Some [("message", PyStr "Created")]) None;
     EvGet "http://localhost:5000/status/400" (Some [("message", PyStr "Bad Request")]) None;
     EvGet "http://localhost:5000/status/404" (Some [("message", PyStr "Not Found")]) None;
     EvGet "http://localhost:5000/status/500"
       (Some [("message", PyStr "Internal Server Error")]) None] /\
  reported "✓ Success" (trace y)
  = existsb (fun k => answered_with (fun s => s =? 200) (net k)) (seq 0 5) /\
  reported "✓ Resource created" (trace y)
  = existsb (fun k => answered_with (fun s => s =? 201) (net k)) (seq 0 5) /\
  reported "✗ Client error" (trace y)
  = existsb (fun k => answered_with (fun s => (s >=? 400) && (s <? 500)) (net k))
      (seq 0 5) /\
  reported "✗ Server error" (trace y)
  = existsb (fun k => answered_with (fun s => s >=? 500) (net k)) (seq 0 5).
Proof. exact (example_status_code_handling_run json_dumps net). Qed.

(** ** [error_handling.py] as a script *)



